(** * Medical Report Analyzer: the page controller of [streamlit_app.py]

    A shallow embedding of the four Streamlit pages
    ([show_upload_and_analyze], [show_report_generation],
    [show_quick_summary], [show_report_history]) as state-passing
    functions over an explicit world: the session state, the upload
    area on disk, the report store and the widgets rendered so far.

    The collaborators that the script only imports (pandas' CSV parser,
    the analysis agent, the chart renderer) are section variables; the
    report store and the report assembler, which belong to the
    repository but are not part of the script, follow their written
    contract. *)

From Stdlib Require Import ZArith Ascii.
From stdpp Require Import base option list gmap strings fin_maps pretty sorting.

Local Open Scope Z_scope.

(** ** Exceptions and results *)

Inductive ExnKind :=
  | ParserError        (* pandas could not parse the bytes: FormatError *)
  | FileNotFoundError
  | TypeError
  | RenderError        (* the chart renderer failed *)
  | AnalysisFailure    (* the analysis agent raised *)
  | AssemblyError
  | StorageError
  | NotFoundError.

Record Exn := MkExn { exn_kind : ExnKind; exn_msg : string }.

Inductive result (A : Type) :=
  | Ok (a : A)
  | Raise (e : Exn).
Arguments Ok {A} a.
Arguments Raise {A} e.

Global Instance ExnKind_eq_dec : EqDecision ExnKind.
Proof. solve_decision. Defined.

(** ** Tables (pandas data frames) *)

(** A Python float, kept as a dyadic number. *)
Record float64 := MkFloat { mantissa : Z; exponent : Z }.

Inductive Scalar :=
  | SInt (z : Z)
  | SFloat (f : float64)
  | SStr (s : string)
  | SBool (b : bool).

(** A cell is a value or missing (NaN / None). *)
Abbreviation Cell := (option Scalar).

Inductive Dtype := Int64 | Float64 | Object | Bool.

Global Instance Dtype_eq_dec : EqDecision Dtype.
Proof. solve_decision. Defined.

Record Column := MkColumn {
  col_name : string;
  col_dtype : Dtype;
  col_cells : list Cell
}.

Record DataFrame := MkDataFrame {
  df_index : list Z;
  df_columns : list Column
}.

(** Every column is as long as the index. *)
Definition df_wf (d : DataFrame) : Prop :=
  Forall (λ c, length (col_cells c) = length (df_index d)) (df_columns d).

(** [len(df)] *)
Definition df_len (d : DataFrame) : Z := Z.of_nat (length (df_index d)).

(** [len(df.columns)] *)
Definition columns_len (d : DataFrame) : Z := Z.of_nat (length (df_columns d)).

(** [df.select_dtypes(include=['int64', 'float64'])] *)
Definition is_numeric (t : Dtype) : bool :=
  match t with Int64 | Float64 => true | _ => false end.

Definition select_numeric (d : DataFrame) : DataFrame :=
  {| df_index := df_index d;
     df_columns := filter (λ c, is_numeric (col_dtype c) = true) (df_columns d) |}.

(** [df.isnull()]: the frame of booleans, column by column. *)
Definition cell_isnull (c : Cell) : bool :=
  match c with None => true | Some _ => false end.

Definition isnull (d : DataFrame) : list (string * list bool) :=
  fmap (λ c, (col_name c, fmap cell_isnull (col_cells c))) (df_columns d).

(** [.sum()] on a boolean frame: one count per column. *)
Definition bool_to_Z (b : bool) : Z := if b then 1 else 0.

Definition sum_bools (bs : list bool) : Z := foldr (λ b acc, bool_to_Z b + acc) 0 bs.

Definition frame_sum (f : list (string * list bool)) : list (string * Z) :=
  fmap (λ p, (fst p, sum_bools (snd p))) f.

(** [.sum()] on the resulting series. *)
Definition series_sum (s : list (string * Z)) : Z := foldr (λ p acc, snd p + acc) 0 s.

(** [df.isnull().sum().sum()] *)
Definition missing_values (d : DataFrame) : Z := series_sum (frame_sum (isnull d)).

(** [df.head()]: the first five rows. *)
Definition head (d : DataFrame) : DataFrame :=
  {| df_index := take 5 (df_index d);
     df_columns := fmap (λ c, {| col_name := col_name c; col_dtype := col_dtype c;
                                col_cells := take 5 (col_cells c) |}) (df_columns d) |}.

(** The table read record by record: row [i] holds the [i]-th cell of
    every column. *)
Definition row_at (d : DataFrame) (i : nat) : list Cell :=
  fmap (λ c, default None (col_cells c !! i)) (df_columns d).

Definition rows (d : DataFrame) : list (list Cell) :=
  fmap (row_at d) (seq 0 (length (df_index d))).

Definition missing_in_row (r : list Cell) : nat := length (filter (λ c, c = None) r).

(** The number of missing cells of the table, counted over its records. *)
Definition missing_cells (d : DataFrame) : nat := sum_list (fmap missing_in_row (rows d)).

(** ** Analysis results *)

(** The dictionary returned by [llm_agent.analyze]: every recognised key
    is optional. *)
Record AnalysisResult := MkAnalysis {
  insights : option (list string);
  risk_factors : option (list string);
  predictions : option (list Scalar);
  accuracy : option float64;
  confusion_matrix : option (list (list Z));
  error : option string
}.

(** ** Strings and paths *)

Definition newline : string := String (ascii_of_nat 10) EmptyString.

(** ["\n".join(l)] *)
Definition join_lines (l : list string) : string := String.concat newline l.

(** [", ".join(l)] *)
Definition join_comma (l : list string) : string := String.concat ", " l.

Fixpoint is_prefix (p s : string) : bool :=
  match p, s with
  | EmptyString, _ => true
  | String a p', String b s' => if Ascii.eqb a b then is_prefix p' s' else false
  | String _ _, EmptyString => false
  end.

Fixpoint contains (q s : string) : bool :=
  is_prefix q s ||
  match s with
  | EmptyString => false
  | String _ s' => contains q s'
  end.

(** The text after the last dot of a file name, if there is a dot. *)
Fixpoint extension_from (s : string) (acc : option string) : option string :=
  match s with
  | EmptyString => acc
  | String c s' =>
      if Ascii.eqb c "."%char then extension_from s' (Some s') else extension_from s' acc
  end.

Definition extension (name : string) : option string := extension_from name None.

(** The text after the last slash: [os.path.basename]. *)
Fixpoint basename_from (s acc : string) : string :=
  match s with
  | EmptyString => acc
  | String c s' =>
      if Ascii.eqb c "/"%char then basename_from s' s' else basename_from s' acc
  end.

Definition basename (p : string) : string := basename_from p p.

(** [os.path.join(dir, name)] on POSIX: an absolute [name] wins. *)
Definition path_join (dir name : string) : string :=
  if is_prefix "/" name then name else dir +:+ "/" +:+ name.

(** [str.lower()] on ASCII letters. *)
Definition lower_char (c : ascii) : ascii :=
  let n := nat_of_ascii c in
  if (65 <=? n)%nat && (n <=? 90)%nat then ascii_of_nat (n + 32) else c.

Fixpoint lower (s : string) : string :=
  match s with
  | EmptyString => EmptyString
  | String c s' => String (lower_char c) (lower s')
  end.

(** ** The report store *)

Inductive MetaVal :=
  | MInt (z : Z)
  | MStr (s : string).

Global Instance MetaVal_eq_dec : EqDecision MetaVal.
Proof. solve_decision. Defined.

Record ReportRecord := MkReport {
  rec_id : Z;
  rec_filename : string;
  rec_report_path : string;
  rec_report_type : string;
  rec_analysis : AnalysisResult;
  rec_metadata : gmap string MetaVal;
  rec_created_at : Z
}.

Record QuickSummary := MkSummary {
  summary_report_id : Z;
  summary_text : string
}.

(** What [search_reports] and [get_recent_reports] hand to the page:
    the keys [id], [filename], [created_at] and [metadata]. *)
Record ReportSummary := MkReportSummary {
  sum_id : Z;
  sum_filename : string;
  sum_report_type : string;
  sum_created_at : Z;
  sum_metadata : gmap string MetaVal
}.

Record ReportDetails := MkDetails {
  det_record : ReportRecord;
  det_summaries : list QuickSummary
}.

Record Stats := MkStats {
  total_reports : Z;
  recent_reports : Z
}.

Record Store := MkStore {
  reports : list ReportRecord;
  summaries : list QuickSummary;
  available : bool
}.

Definition empty_store : Store :=
  {| reports := []; summaries := []; available := true |}.

Module DatabaseManager.

Definition storage_error : Exn := MkExn StorageError "storage unavailable".
Definition not_found (id : Z) : Exn := MkExn NotFoundError ("no report " +:+ pretty id).

(** Modelled from the spec: the store assigns the identifier of a new
    record; it is taken above every identifier in use. *)
Definition fresh_id (rs : list ReportRecord) : Z :=
  1 + foldr Z.max 0 (fmap rec_id rs).

Definition find_report (id : Z) (rs : list ReportRecord) : option ReportRecord :=
  List.find (λ r, bool_decide (rec_id r = id)) rs.

(** Modelled from the spec: [DatabaseManager.save_report] of
    [src/database/db_manager.py] is missing. It inserts one new Report
    Record, assigns its identifier and its creation timestamp, and
    always succeeds unless the storage is unavailable
    ([StorageError]). *)
Definition save_report (now : Z) (filename report_path report_type : string)
    (analysis : AnalysisResult) (metadata : gmap string MetaVal)
    (s : Store) : result Z * Store :=
  if available s then
    let id := fresh_id (reports s) in
    let r := {| rec_id := id; rec_filename := filename;
                rec_report_path := report_path; rec_report_type := report_type;
                rec_analysis := analysis; rec_metadata := metadata;
                rec_created_at := now |} in
    (Ok id, {| reports := reports s ++ [r]; summaries := summaries s;
               available := true |})
  else (Raise storage_error, s).

(** Modelled from the spec: [DatabaseManager.save_quick_summary] is
    missing. It fails with [NotFoundError] if the identifier does not
    reference an existing Report Record, and otherwise attaches the
    text to that record. *)
Definition save_quick_summary (report_id : Z) (text : string)
    (s : Store) : result unit * Store :=
  if available s then
    match find_report report_id (reports s) with
    | Some _ =>
        (Ok tt, {| reports := reports s;
                   summaries := summaries s ++
                     [ {| summary_report_id := report_id; summary_text := text |} ];
                   available := true |})
    | None => (Raise (not_found report_id), s)
    end
  else (Raise storage_error, s).

Definition summarize (r : ReportRecord) : ReportSummary :=
  {| sum_id := rec_id r; sum_filename := rec_filename r;
     sum_report_type := rec_report_type r;
     sum_created_at := rec_created_at r; sum_metadata := rec_metadata r |}.

(** Modelled from the spec: the order of [recent], creation time
    descending, ties broken by identifier descending. *)
Definition newer (a b : ReportRecord) : Prop :=
  rec_created_at b < rec_created_at a ∨
  (rec_created_at b = rec_created_at a ∧ rec_id b ≤ rec_id a).

Global Instance newer_dec : RelDecision newer.
Proof. intros a b. unfold newer. apply _. Defined.

(** Modelled from the spec: the same order, on the summaries handed
    to the page. *)
Definition newer_summary (a b : ReportSummary) : Prop :=
  sum_created_at b < sum_created_at a ∨
  (sum_created_at b = sum_created_at a ∧ sum_id b ≤ sum_id a).

Definition by_recency (rs : list ReportRecord) : list ReportRecord :=
  merge_sort newer rs.

(** Modelled from the spec: [DatabaseManager.get_recent_reports] is
    missing. [recent(limit)] is the sequence of Report Record
    summaries ordered by creation time descending, ties broken by
    identifier descending, cut to [limit] entries; the limit is a
    count of records. *)
Definition get_recent_reports (limit : nat) (s : Store) : result (list ReportSummary) :=
  if available s then Ok (fmap summarize (take limit (by_recency (reports s))))
  else Raise storage_error.

(** Modelled from the spec: [DatabaseManager.search_reports] is
    missing. It matches the query as a substring of the file name and
    orders the matches by recency, which is stable on unchanged
    data. *)
Definition search_reports (query : string) (s : Store) : result (list ReportSummary) :=
  if available s then
    Ok (fmap summarize
          (by_recency (filter (λ r, contains query (rec_filename r) = true) (reports s))))
  else Raise storage_error.

(** Modelled from the spec: [DatabaseManager.get_report_details] is
    missing. It returns the full Report Record with its associated
    Quick Summaries; a missing identifier ([NotFoundError]) is the
    absent result [None], which is what the history page tests for. *)
Definition get_report_details (id : Z) (s : Store) : result (option ReportDetails) :=
  if available s then
    Ok (match find_report id (reports s) with
        | Some r =>
            Some {| det_record := r;
                    det_summaries :=
                      filter (λ q, summary_report_id q = id) (summaries s) |}
        | None => None
        end)
  else Raise storage_error.

(** Modelled from the spec: [DatabaseManager.get_report_summary_stats]
    is missing. [total_reports] counts all records, [recent_reports]
    those created within the trailing 24 hours of the call. *)
Definition get_report_summary_stats (now : Z) (s : Store) : result Stats :=
  if available s then
    Ok {| total_reports := Z.of_nat (length (reports s));
          recent_reports :=
            Z.of_nat (length (filter (λ r, now - 86400 ≤ rec_created_at r) (reports s))) |}
  else Raise storage_error.

End DatabaseManager.

(** ** Widgets, session and world *)

Inductive Chart :=
  | Histplot (data : DataFrame) (x : option string) (title : string)
  | CorrHeatmap (numeric : DataFrame) (title : string)
  | ConfusionHeatmap (matrix : list (list Z)) (title : string).

(** What a page has rendered, in order. [MetricCard] is the
    [metric-card] block of HTML with a value formatted into it. *)
Inductive Widget :=
  | PageConfig (page_title page_icon layout initial_sidebar_state : string)
  | Title (s : string)
  | Markdown (s : string)
  | MetricCard (value : Z) (label : string)
  | Metric (label : string) (value : Z)
  | DataFrameView (d : DataFrame)
  | DescribeView (d : DataFrame)
  | ModelAccuracy (a : float64)
  | Pyplot (c : Chart)
  | ErrorMsg (s : string)
  | WarningMsg (s : string)
  | InfoMsg (s : string)
  | SuccessMsg (s : string)
  | DownloadButton (label file_name : string) (data : list Byte.byte)
  | Expander (label : string)
  | ReportPreview (generated_on : Z) (file format sections : string) (records features : Z)
  | Json (m : gmap string MetaVal)
  | Sidebar (w : Widget).

Record UploadedFile := MkUpload {
  uf_name : string;
  uf_type : string;
  uf_buffer : list Byte.byte
}.

Record Session := MkSession {
  current_file : option string;
  analysis_results : option AnalysisResult;
  df : option DataFrame;
  selected_report : option Z
}.

(** Lines 84-89: every key starts as [None]. *)
Definition initial_session : Session :=
  {| current_file := None; analysis_results := None; df := None;
     selected_report := None |}.

Inductive DbCall :=
  | SaveReport (filename report_path report_type : string)
      (analysis : AnalysisResult) (metadata : gmap string MetaVal) (returned : result Z)
  | SaveQuickSummary (report_id : Z) (text : string) (returned : result unit)
  | SearchReports (query : string)
  | GetRecentReports (limit : nat)
  | GetReportDetails (id : Z)
  | GetReportSummaryStats.

(** The calls of [report_agent.generate_report], with what they
    returned. *)
Inductive AgentCall :=
  | GenerateReport (data_file : string) (analysis : AnalysisResult)
      (report_type : string) (returned : result string).

Record World := MkWorld {
  session : Session;
  fs : gmap string (list Byte.byte);
  db : Store;
  screen : list Widget;
  db_log : list DbCall;
  agent_log : list AgentCall;
  clock : Z
}.

(** The external collaborators of the script. *)
Record Collaborators := MkCollaborators {
  read_csv : list Byte.byte → result DataFrame;
  analyze : DataFrame → string → result AnalysisResult;
  plot : Chart → result unit;
  render_document : string → AnalysisResult → string → Z → result (list Byte.byte)
}.

(** ** A state and exception monad over the world *)

Definition M (A : Type) : Type := World → result A * World.

Global Instance M_ret : MRet M := λ A a w, (Ok a, w).

Global Instance M_bind : MBind M := λ A B k m w,
  match m w with
  | (Ok a, w') => k a w'
  | (Raise e, w') => (Raise e, w')
  end.

Definition raise {A} (e : Exn) : M A := λ w, (Raise e, w).

Definition lift {A} (r : result A) : M A := λ w, (r, w).

(** [try: body except Exception as e: handler(e)]: the state reached
    when the exception was raised is kept. *)
Definition try_except {A} (body : M A) (handler : Exn → M A) : M A := λ w,
  match body w with
  | (Ok a, w') => (Ok a, w')
  | (Raise e, w') => handler e w'
  end.

Definition get_session : M Session := λ w, (Ok (session w), w).

Definition get_clock : M Z := λ w, (Ok (clock w), w).

Definition put_session (s : Session) : M unit := λ w,
  (Ok tt, {| session := s; fs := fs w; db := db w; screen := screen w;
             db_log := db_log w; agent_log := agent_log w;
             clock := clock w |}).

Definition set_current_file (p : string) : M unit :=
  s ← get_session;
  put_session {| current_file := Some p; analysis_results := analysis_results s;
                 df := df s; selected_report := selected_report s |}.

Definition set_df (d : DataFrame) : M unit :=
  s ← get_session;
  put_session {| current_file := current_file s; analysis_results := analysis_results s;
                 df := Some d; selected_report := selected_report s |}.

Definition set_analysis_results (r : AnalysisResult) : M unit :=
  s ← get_session;
  put_session {| current_file := current_file s; analysis_results := Some r;
                 df := df s; selected_report := selected_report s |}.

Definition set_selected_report (id : Z) : M unit :=
  s ← get_session;
  put_session {| current_file := current_file s; analysis_results := analysis_results s;
                 df := df s; selected_report := Some id |}.

Definition show (x : Widget) : M unit := λ w,
  (Ok tt, {| session := session w; fs := fs w; db := db w; screen := screen w ++ [x];
             db_log := db_log w; agent_log := agent_log w;
             clock := clock w |}).

(** [os.makedirs(save_dir, exist_ok=True)] and
    [with open(path, "wb") as f: f.write(data)], for a path that the
    upload area accepts: the directory is there and the write goes
    through. *)
Definition write_file (path : string) (data : list Byte.byte) : M unit := λ w,
  (Ok tt, {| session := session w; fs := <[path := data]> (fs w); db := db w;
             screen := screen w; db_log := db_log w; agent_log := agent_log w;
             clock := clock w |}).

(** [open(path, "rb")] *)
Definition read_file (path : string) : M (list Byte.byte) := λ w,
  match fs w !! path with
  | Some data => (Ok data, w)
  | None => (Raise (MkExn FileNotFoundError ("No such file or directory: " +:+ path)), w)
  end.

(** A call of a store operation that changes the store. *)
Definition db_update {A} (op : Store → result A * Store) (call : result A → DbCall) : M A :=
  λ w,
  let '(r, s') := op (db w) in
  (r, {| session := session w; fs := fs w; db := s'; screen := screen w;
         db_log := db_log w ++ [call r]; agent_log := agent_log w;
         clock := clock w |}).

(** A call of a store operation that only reads. *)
Definition db_query {A} (op : Store → result A) (call : DbCall) : M A := λ w,
  (op (db w), {| session := session w; fs := fs w; db := db w; screen := screen w;
                 db_log := db_log w ++ [call]; agent_log := agent_log w;
                 clock := clock w |}).

(** [for x in l: body(x)] *)
Fixpoint for_each {A} (l : list A) (body : A → M unit) : M unit :=
  match l with
  | [] => mret tt
  | x :: l' => body x;; for_each l' body
  end.

(** ** Streamlit widgets that return a value *)

(** [st.file_uploader(label, type=types)]: the chosen file, if its
    extension, compared without regard to case, is one of [types]. *)
Definition file_uploader (types : list string) (chosen : option UploadedFile)
    : option UploadedFile :=
  match chosen with
  | Some f =>
      match extension (uf_name f) with
      | Some ext => if bool_decide (lower ext ∈ types) then Some f else None
      | None => None
      end
  | None => None
  end.

(** [st.selectbox(label, options)]: the choice if it is an option, else
    the first option, else [None]. *)
Definition selectbox (options : list string) (choice : option string) : option string :=
  match choice with
  | Some c => if bool_decide (c ∈ options) then Some c else options !! 0%nat
  | None => options !! 0%nat
  end.

(** ** What the user did on each page *)

Record UploadInput := MkUploadInput {
  up_file : option UploadedFile;
  up_analysis_type : option string;
  up_run : bool;                     (* "Run Analysis" pressed *)
  up_feature : option string
}.

Record ReportInput := MkReportInput {
  rp_feature : option string;
  rp_options : list string;
  rp_format : string;                (* "Standard" or "Detailed" *)
  rp_generate : bool                 (* "Generate Report" pressed *)
}.

Record HistoryInput := MkHistoryInput {
  hi_query : string;
  hi_view : option Z                 (* the "View Full Report" button pressed *)
}.

Inductive Page :=
  | UploadAndAnalyze (i : UploadInput)
  | ReportGeneration (i : ReportInput)
  | QuickSummaryPage (chosen : option UploadedFile)
  | ReportHistory (i : HistoryInput).

(** Lines 27-81: the style sheet that every run renders first. *)
Definition custom_css : string := "
    <style>
        .main {
            padding: 2rem;
        }
        .stButton>button {
            width: 100%;
            height: 3em;
            font-size: 1.2em;
            border-radius: 10px;
            font-weight: bold;
        }
        .css-1v0mbdj {
            width: 100%;
        }
        .stPlotlyChart {
            margin: auto;
        }
        h1 {
            color: #2c3e50;
            font-size: 2.5em !important;
            font-weight: bold !important;
            margin-bottom: 1em !important;
        }
        h2 {
            color: #34495e;
            font-size: 2em !important;
            font-weight: bold !important;
            margin-top: 1em !important;
        }
        h3 {
            color: #2980b9;
            font-size: 1.5em !important;
        }
        .stAlert {
            font-size: 1.2em !important;
        }
        .metric-card {
            background-color: #f8f9fa;
            padding: 1rem;
            border-radius: 10px;
            box-shadow: 0 2px 4px rgba(0,0,0,0.1);
            text-align: center;
        }
        .metric-value {
            font-size: 2em;
            font-weight: bold;
            color: #2980b9;
        }
        .metric-label {
            font-size: 1.2em;
            color: #7f8c8d;
        }
    </style>
".

Section Pages.

Variable env : Collaborators.

(** [pd.read_csv(path)] *)
Definition read_csv_path (path : string) : M DataFrame :=
  data ← read_file path;
  lift (read_csv env data).

(** A figure is drawn by the renderer and handed to [st.pyplot]. *)
Definition draw (c : Chart) : M unit :=
  lift (plot env c);; show (Pyplot c).

Definition numeric_cols (d : DataFrame) : list string :=
  fmap col_name (df_columns (select_numeric d)).

Definition analysis_types : list string :=
  ["Basic Analysis"; "Detailed Analysis with Predictions"].

Definition show_bullets (l : list string) : M unit :=
  for_each l (λ x, show (Markdown ("• " +:+ x))).

(** Lines 171-222: the three result tabs. *)
Definition show_analysis_tabs (d : DataFrame) (r : AnalysisResult)
    (feature : option string) : M unit :=
  match insights r with
  | Some l => show_bullets l
  | None => mret tt
  end;;
  match risk_factors r with
  | Some l => show (Markdown "### Risk Factors");; show_bullets l
  | None => mret tt
  end;;
  show (Markdown "#### Distribution Analysis");;
  let selected_col := selectbox (numeric_cols d) feature in
  draw (Histplot d selected_col ("Distribution of " +:+ default "None" selected_col));;
  show (Markdown "#### Correlation Analysis");;
  draw (CorrHeatmap (select_numeric d) "Feature Correlations");;
  match predictions r with
  | Some _ =>
      show (Markdown "### Prediction Results");;
      match accuracy r with
      | Some a => show (ModelAccuracy a)
      | None => mret tt
      end;;
      match confusion_matrix r with
      | Some m =>
          show (Markdown "#### Confusion Matrix");;
          draw (ConfusionHeatmap m "Confusion Matrix")
      | None => mret tt
      end
  | None => show (InfoMsg "No prediction results available for this analysis.")
  end;;
  show (SuccessMsg "Analysis complete! 🎉").

(** Lines 105-115: the upload is saved, recorded as the current file,
    read back and kept as the current table. *)
Definition load_upload (uploaded_file : UploadedFile) : M DataFrame :=
  let file_path := path_join "uploads" (uf_name uploaded_file) in
  write_file file_path (uf_buffer uploaded_file);;
  set_current_file file_path;;
  d ← read_csv_path file_path;
  set_df d;;
  mret d.

(** Lines 117-154: the data overview. *)
Definition show_overview (d : DataFrame) : M unit :=
  show (MetricCard (df_len d) "Records");;
  show (MetricCard (columns_len d) "Features");;
  show (MetricCard (columns_len (select_numeric d)) "Numeric Cols");;
  let missing := missing_values d in
  show (MetricCard missing "Missing Values");;
  show (Markdown "### Data Preview");;
  show (DataFrameView (head d)).

(** Lines 156-222: the analysis section. *)
Definition analysis_section (d : DataFrame) (i : UploadInput) : M unit :=
  show (Markdown "## Analysis Options");;
  let analysis_type := default "" (selectbox analysis_types (up_analysis_type i)) in
  if up_run i then
    r ← lift (analyze env d analysis_type);
    set_analysis_results r;;
    show_analysis_tabs d r (up_feature i)
  else mret tt.

(** Lines 104-222: the body of the [try] block. *)
Definition upload_body (uploaded_file : UploadedFile) (i : UploadInput) : M unit :=
  d ← load_upload uploaded_file;
  show_overview d;;
  analysis_section d i.

Definition show_upload_and_analyze (i : UploadInput) : M unit :=
  show (Title "Medical Data Analysis 🔬");;
  match file_uploader ["csv"] (up_file i) with
  | Some uploaded_file =>
      try_except (upload_body uploaded_file i)
        (λ e, show (ErrorMsg ("Error processing file: " +:+ exn_msg e)))
  | None => mret tt
  end.

(** Modelled from the spec: the inputs that the Report Assembler
    refuses, whatever the format asked for: a result that carries an
    [error], and a result of the detailed mode without [accuracy]. A
    result is one of the detailed mode when it carries [predictions],
    the key that is present only for that mode. *)
Definition refused (analysis : AnalysisResult) : option string :=
  match error analysis, predictions analysis, accuracy analysis with
  | Some msg, _, _ => Some ("analysis failed: " +:+ msg)
  | None, Some _, None => Some "accuracy is missing"
  | None, _, _ => None
  end.

(** Modelled from the spec: the document is named from the source
    file name plus generation metadata, the format and the time of
    generation. *)
Definition report_path_for (data_file report_type : string) (now : Z) : string :=
  "reports/" +:+ basename data_file +:+ "_" +:+ report_type +:+ "_" +:+ pretty now
  +:+ ".pdf".

(** Modelled from the spec: [ReportGenerationAgent.generate_report] of
    [src/agents/report_generation_agent.py] is missing. It fails with
    [AssemblyError] on the inputs it refuses and when the underlying
    renderer fails; otherwise it writes exactly one document to the
    output area and returns its non-empty path. *)
Definition generate_report (data_file : string) (analysis : AnalysisResult)
    (report_type : string) : M string :=
  match refused analysis with
  | Some why => raise (MkExn AssemblyError why)
  | None =>
      now ← get_clock;
      match render_document env data_file analysis report_type now with
      | Ok doc =>
          let path := report_path_for data_file report_type now in
          write_file path doc;; mret path
      | Raise e => raise (MkExn AssemblyError (exn_msg e))
      end
  end.

(** [report_agent.generate_report(...)] as the page calls it. *)
Definition agent_generate_report (data_file : string) (analysis : AnalysisResult)
    (report_type : string) : M string := λ w,
  let '(r, w') := generate_report data_file analysis report_type w in
  (r, {| session := session w'; fs := fs w'; db := db w'; screen := screen w';
         db_log := db_log w';
         agent_log := agent_log w' ++ [GenerateReport data_file analysis report_type r];
         clock := clock w' |}).

(** Lines 239-273: the dashboard. *)
Definition show_dashboard (file : string) (i : ReportInput) : M unit :=
  d ← read_csv_path file;
  show (Markdown "## Data Insights Dashboard");;
  show (Markdown "### Distribution Analysis");;
  let selected_col := selectbox (numeric_cols d) (rp_feature i) in
  draw (Histplot d selected_col ("Distribution of " +:+ default "None" selected_col));;
  show (Markdown "### Correlation Analysis");;
  draw (CorrHeatmap (select_numeric d) "Feature Correlation Analysis");;
  show (Markdown "### Statistical Summary");;
  show (DescribeView d).

(** Lines 298-334: the body of the [try] block. *)
Definition generate_body (file : string) (analysis : AnalysisResult)
    (i : ReportInput) : M unit :=
  report_path ← agent_generate_report file analysis (lower (rp_format i));
  show (SuccessMsg "Report generated successfully! 🎉");;
  data ← read_file report_path;
  show (DownloadButton "📥 Download Report" (basename report_path) data);;
  show (Expander "Report Preview");;
  show (InfoMsg "This is a preview of the report content. Download the PDF for the full formatted report.");;
  now ← get_clock;
  s ← get_session;
  match df s with
  | Some d =>
      show (ReportPreview now (basename file) (rp_format i) (join_comma (rp_options i))
              (df_len d) (columns_len d))
  | None => raise (MkExn TypeError "object of type 'NoneType' has no len()")
  end.

(** Line 239: the dashboard is shown for a non-empty path. *)
Definition report_dashboard (file : string) (i : ReportInput) : M unit :=
  if bool_decide (file = "") then mret tt else show_dashboard file i.

(** Lines 275-338: the report section. *)
Definition generate_section (file : string) (analysis : AnalysisResult)
    (i : ReportInput) : M unit :=
  show (Markdown "## Generate Report");;
  if rp_generate i then
    try_except (generate_body file analysis i)
      (λ e, show (ErrorMsg ("Error generating report: " +:+ exn_msg e));;
            show (ErrorMsg "Please try again."))
  else mret tt.

Definition show_report_generation (i : ReportInput) : M unit :=
  show (Title "Report Generation 📄");;
  s ← get_session;
  match current_file s with
  | None => show (WarningMsg "Please upload a file first in the Upload & Analyze section")
  | Some file =>
      match analysis_results s with
      | None => show (WarningMsg "Please run analysis first in the Upload & Analyze section")
      | Some analysis =>
          report_dashboard file i;;
          generate_section file analysis i
      end
  end.

Definition quick_metadata (d : DataFrame) (uploaded_file : UploadedFile)
    : gmap string MetaVal :=
  <["file_type" := MStr (uf_type uploaded_file)]>
    (<["columns" := MInt (columns_len d)]>
       (<["rows" := MInt (df_len d)]> ∅)).

Definition db_save_report (filename report_path report_type : string)
    (analysis : AnalysisResult) (metadata : gmap string MetaVal) : M Z :=
  now ← get_clock;
  db_update
    (DatabaseManager.save_report now filename report_path report_type analysis metadata)
    (SaveReport filename report_path report_type analysis metadata).

Definition db_save_quick_summary (report_id : Z) (text : string) : M unit :=
  db_update (DatabaseManager.save_quick_summary report_id text)
    (SaveQuickSummary report_id text).

(** Lines 365-392: what follows the analysis. *)
Definition quick_summary_save (d : DataFrame) (uploaded_file : UploadedFile)
    (analysis : AnalysisResult) : M unit :=
  match error analysis with
  | None =>
      match insights analysis with
      | Some l => for_each l (λ insight, show (InfoMsg insight))
      | None => mret tt
      end;;
      let metadata := quick_metadata d uploaded_file in
      report_id ← db_save_report (uf_name uploaded_file) "" "quick_summary"
                    analysis metadata;
      let summary_text := join_lines (default [] (insights analysis)) in
      db_save_quick_summary report_id summary_text;;
      show (SuccessMsg "Summary saved to database! 🎉")
  | Some _ => show (ErrorMsg "Failed to generate summary. Please try again.")
  end.

(** Lines 350-357: the dataset overview. *)
Definition quick_overview (d : DataFrame) : M unit :=
  show (Markdown "### Dataset Overview");;
  show (Metric "Total Records" (df_len d));;
  show (Metric "Features" (columns_len d));;
  show (Metric "Missing Values" (missing_values d)).

Definition show_quick_summary (chosen : option UploadedFile) : M unit :=
  show (Title "Quick Summary 📋");;
  match file_uploader ["csv"; "xlsx"] chosen with
  | Some uploaded_file =>
      d ← lift (read_csv env (uf_buffer uploaded_file));
      quick_overview d;;
      show (Markdown "### Quick Insights");;
      analysis ← lift (analyze env d "basic");
      quick_summary_save d uploaded_file analysis
  | None => mret tt
  end.

(** Lines 406-418: one entry of the history. *)
Definition show_report_entry (view : option Z) (report : ReportSummary) : M unit :=
  show (Expander (sum_filename report +:+ " - " +:+ pretty (sum_created_at report)));;
  show (Json (sum_metadata report));;
  details ← db_query (DatabaseManager.get_report_details (sum_id report))
               (GetReportDetails (sum_id report));
  match details with
  | Some det =>
      show (Markdown "### Quick Summaries");;
      for_each (det_summaries det) (λ q, show (InfoMsg (summary_text q)))
  | None => mret tt
  end;;
  if bool_decide (view = Some (sum_id report))
  then set_selected_report (sum_id report)
  else mret tt.

Definition show_report_history (i : HistoryInput) : M unit :=
  show (Title "Report History 📚");;
  let search_query := hi_query i in
  found ← (if bool_decide (search_query = "")
           then db_query (DatabaseManager.get_recent_reports 10) (GetRecentReports 10)
           else db_query (DatabaseManager.search_reports search_query)
                  (SearchReports search_query));
  for_each found (show_report_entry (hi_view i));;
  now ← get_clock;
  stats ← db_query (DatabaseManager.get_report_summary_stats now) GetReportSummaryStats;
  show (Sidebar (Markdown "### Report Statistics"));;
  show (Sidebar (Metric "Total Reports" (total_reports stats)));;
  show (Sidebar (Metric "Recent Reports (24h)" (recent_reports stats))).

(** Lines 19-95 and 426-434: the page configuration, the style sheet
    and the sidebar, then the chosen page. *)
Definition main (p : Page) : M unit :=
  show (PageConfig "Medical Report Analyzer" "🏥" "wide" "expanded");;
  show (Markdown custom_css);;
  show (Sidebar (Title "🏥 Medical Report Analyzer"));;
  show (Sidebar (Markdown "---"));;
  match p with
  | UploadAndAnalyze i => show_upload_and_analyze i
  | ReportGeneration i => show_report_generation i
  | QuickSummaryPage chosen => show_quick_summary chosen
  | ReportHistory i => show_report_history i
  end.

End Pages.

(** ** What an action may only add to *)

(** The screen and the call logs are only ever appended to. *)
Definition extends (w w' : World) : Prop :=
  screen w `prefix_of` screen w' ∧
  db_log w `prefix_of` db_log w' ∧
  agent_log w `prefix_of` agent_log w'.

Definition monotone {A} (m : M A) : Prop := ∀ w, extends w (m w).2.

(** The same session, files, store and clock. *)
Definition same_state (w w' : World) : Prop :=
  session w' = session w ∧ fs w' = fs w ∧ db w' = db w ∧ clock w' = clock w.

(** The world after the widgets [l] were rendered and nothing else
    happened. *)
Definition add_widgets (w : World) (l : list Widget) : World :=
  {| session := session w; fs := fs w; db := db w; screen := screen w ++ l;
     db_log := db_log w; agent_log := agent_log w; clock := clock w |}.

(** The record that the Quick Summary page hands to the store, as the
    store keeps it under identifier [id] at time [now]. *)
Definition quick_record (id now : Z) (f : UploadedFile) (d : DataFrame)
    (a : AnalysisResult) : ReportRecord :=
  {| rec_id := id; rec_filename := uf_name f; rec_report_path := "";
     rec_report_type := "quick_summary"; rec_analysis := a;
     rec_metadata := quick_metadata d f; rec_created_at := now |}.

(** The world after a Quick Summary was saved. *)
Definition after_quick_save (w : World) (f : UploadedFile) (d : DataFrame)
    (a : AnalysisResult) : World :=
  let id := DatabaseManager.fresh_id (reports (db w)) in
  let text := join_lines (default [] (insights a)) in
  {| session := session w; fs := fs w;
     db := {| reports := reports (db w) ++ [quick_record id (clock w) f d a];
              summaries := summaries (db w) ++
                             [ {| summary_report_id := id; summary_text := text |} ];
              available := true |};
     screen := screen w ++ (InfoMsg <$> default [] (insights a))
                 ++ [SuccessMsg "Summary saved to database! 🎉"];
     db_log := db_log w ++
                 [ SaveReport (uf_name f) "" "quick_summary" a (quick_metadata d f) (Ok id);
                   SaveQuickSummary id text (Ok tt) ];
     agent_log := agent_log w; clock := clock w |}.

(** The world after the store refused the record. *)
Definition after_failed_save (w : World) (f : UploadedFile) (d : DataFrame)
    (a : AnalysisResult) : World :=
  {| session := session w; fs := fs w; db := db w;
     screen := screen w ++ (InfoMsg <$> default [] (insights a));
     db_log := db_log w ++
                 [ SaveReport (uf_name f) "" "quick_summary" a (quick_metadata d f)
                     (Raise DatabaseManager.storage_error) ];
     agent_log := agent_log w; clock := clock w |}.

(** What the Quick Summary page shows before the analysis. *)
Definition quick_header (d : DataFrame) : list Widget :=
  [ Title "Quick Summary 📋"; Markdown "### Dataset Overview";
    Metric "Total Records" (df_len d); Metric "Features" (columns_len d);
    Metric "Missing Values" (missing_values d); Markdown "### Quick Insights" ].

(** ** Frames of the page actions *)

(** An action that only renders widgets: whether it returns or raises,
    everything but the screen is as it was. *)
Definition renders_only {A} (m : M A) : Prop :=
  ∀ w, ∃ l, (m w).2 = add_widgets w l.

(** The current file, the analysis results and the table of the
    session are the same, and no file of the upload area is lost. *)
Definition files_kept (w w' : World) : Prop :=
  (current_file (session w'), analysis_results (session w'), df (session w'))
  = (current_file (session w), analysis_results (session w), df (session w)) ∧
  ∀ p, is_Some (fs w !! p) → is_Some (fs w' !! p).

(** Analysis results come with a table, and a table with a current
    file. *)
Definition session_consistent (w : World) : Prop :=
  (is_Some (analysis_results (session w)) → is_Some (df (session w))) ∧
  (is_Some (df (session w)) → is_Some (current_file (session w))).

(** An action that keeps the files, whether it returns or raises. *)
Definition keeps_files {A} (m : M A) : Prop := ∀ w, files_kept w (m w).2.

(** The current file of the session is a file of the upload area. *)
Definition current_file_exists (w : World) : Prop :=
  ∀ p, current_file (session w) = Some p → is_Some (fs w !! p).

(** The analysis type that the Upload & Analyze page hands to the
    agent (lines 158-162). *)
Definition chosen_analysis_type (i : UploadInput) : string :=
  default "" (selectbox ["Basic Analysis"; "Detailed Analysis with Predictions"]
                (up_analysis_type i)).

(** Lines 400-403: the store call that the history page starts with,
    and what the store answers. *)
Definition history_call (i : HistoryInput) : DbCall :=
  if bool_decide (hi_query i = "") then GetRecentReports 10
  else SearchReports (hi_query i).

Definition history_found (i : HistoryInput) (s : Store) : result (list ReportSummary) :=
  if bool_decide (hi_query i = "") then DatabaseManager.get_recent_reports 10 s
  else DatabaseManager.search_reports (hi_query i) s.

(** Lines 407-415: what one entry of the history renders. *)
Definition entry_widgets (s : Store) (report : ReportSummary) : list Widget :=
  [ Expander (sum_filename report +:+ " - " +:+ pretty (sum_created_at report));
    Json (sum_metadata report) ] ++
  match DatabaseManager.get_report_details (sum_id report) s with
  | Ok (Some det) =>
      Markdown "### Quick Summaries" ::
      ((λ q, InfoMsg (summary_text q)) <$> det_summaries det)
  | _ => []
  end.

(** Lines 417-418: the session after the button of one entry was
    looked at. *)
Definition select_report (view : option Z) (report : ReportSummary) (s : Session)
    : Session :=
  if bool_decide (view = Some (sum_id report))
  then {| current_file := current_file s; analysis_results := analysis_results s;
          df := df s; selected_report := Some (sum_id report) |}
  else s.

(** The world after the entries [found] were rendered on an available
    store [db w]. *)
Definition after_entries (view : option Z) (found : list ReportSummary) (w : World)
    : World :=
  {| session := foldl (λ s report, select_report view report s) (session w) found;
     fs := fs w; db := db w;
     screen := screen w ++ concat (entry_widgets (db w) <$> found);
     db_log := db_log w ++ ((λ report, GetReportDetails (sum_id report)) <$> found);
     agent_log := agent_log w; clock := clock w |}.

(** ** Sample data *)

Definition sample_column (name : string) (cells : list Cell) : Column :=
  {| col_name := name; col_dtype := Float64; col_cells := cells |}.

Definition full_cells (n : nat) : list Cell := replicate n (Some (SInt 1)).

(** 100 records, 5 features, 3 missing cells. *)
Definition sample_table : DataFrame :=
  {| df_index := fmap Z.of_nat (seq 0 100);
     df_columns :=
       [ sample_column "age" (None :: full_cells 99);
         sample_column "bmi" (full_cells 100);
         sample_column "glucose" (full_cells 50 ++ None :: full_cells 49);
         sample_column "pressure" (full_cells 100);
         {| col_name := "sex"; col_dtype := Object;
            col_cells := full_cells 99 ++ [None] |} ] |}.

Definition parse_error : Exn := MkExn ParserError "Error tokenizing data".

Definition basic_result : AnalysisResult :=
  {| insights := Some ["glucose is high"; "bmi is normal"]; risk_factors := None;
     predictions := None; accuracy := None; confusion_matrix := None;
     error := None |}.

Definition failed_result : AnalysisResult :=
  {| insights := None; risk_factors := None; predictions := None; accuracy := None;
     confusion_matrix := None; error := Some "model unavailable" |}.

Definition detailed_result : AnalysisResult :=
  {| insights := Some ["glucose is high"]; risk_factors := Some ["hypertension"];
     predictions := Some [SInt 1; SInt 0];
     accuracy := Some {| mantissa := 7836116248955617; exponent := -53 |};
     confusion_matrix := Some [[40; 3]; [10; 47]]; error := None |}.

(** The same result when the prediction step did not report an
    accuracy. *)
Definition detailed_without_accuracy : AnalysisResult :=
  {| insights := Some ["glucose is high"]; risk_factors := Some ["hypertension"];
     predictions := Some [SInt 1; SInt 0]; accuracy := None;
     confusion_matrix := None; error := None |}.

(** Collaborators that read every non-empty upload as [sample_table]. *)
Definition sample_env (analysis : AnalysisResult) : Collaborators :=
  {| read_csv := λ data,
       match data with
       | [] => Raise parse_error
       | _ => Ok sample_table
       end;
     analyze := λ _ _, Ok analysis;
     plot := λ _, Ok tt;
     render_document := λ _ _ _ _, Ok [Byte.x25; Byte.x50; Byte.x44; Byte.x46] |}.

Definition render_error : Exn := MkExn RenderError "could not draw the figure".

(** The same collaborators with a chart renderer that always fails. *)
Definition broken_charts_env (analysis : AnalysisResult) : Collaborators :=
  {| read_csv := read_csv (sample_env analysis);
     analyze := analyze (sample_env analysis);
     plot := λ _, Raise render_error;
     render_document := render_document (sample_env analysis) |}.

(** The same collaborators with an analysis agent that raises. *)
Definition broken_agent_env : Collaborators :=
  {| read_csv := read_csv (sample_env basic_result);
     analyze := λ _ _, Raise (MkExn AnalysisFailure "agent unreachable");
     plot := plot (sample_env basic_result);
     render_document := render_document (sample_env basic_result) |}.

Definition csv_upload : UploadedFile :=
  {| uf_name := "patients.csv"; uf_type := "text/csv"; uf_buffer := [Byte.x61; Byte.x0a] |}.

Definition broken_upload : UploadedFile :=
  {| uf_name := "broken.csv"; uf_type := "text/csv"; uf_buffer := [] |}.

(** A second upload under the name of [csv_upload]. *)
Definition csv_upload_again : UploadedFile :=
  {| uf_name := "patients.csv"; uf_type := "text/csv";
     uf_buffer := [Byte.x62; Byte.x0a] |}.

Definition xlsx_upload : UploadedFile :=
  {| uf_name := "patients.xlsx";
     uf_type := "application/vnd.openxmlformats-officedocument.spreadsheetml.sheet";
     uf_buffer := [] |}.

Definition initial_world : World :=
  {| session := initial_session; fs := ∅; db := empty_store; screen := [];
     db_log := []; agent_log := []; clock := 1700000000 |}.

(** A session in which [patients.csv] was uploaded and analysed with
    the result [a]. *)
Definition analysed_world (a : AnalysisResult) : World :=
  {| session := {| current_file := Some "uploads/patients.csv";
                   analysis_results := Some a; df := Some sample_table;
                   selected_report := None |};
     fs := {["uploads/patients.csv" := uf_buffer csv_upload]};
     db := empty_store; screen := []; db_log := []; agent_log := [];
     clock := 1700000000 |}.

(** The world in which the assembler is called for [i] from
    [analysed_world a], and the world it leaves. *)
Definition before_assembly (a : AnalysisResult) (i : ReportInput) : World :=
  (report_dashboard (sample_env a) "uploads/patients.csv" i
     (add_widgets (analysed_world a) [Title "Report Generation 📄"])).2.

Definition after_assembly (a : AnalysisResult) (i : ReportInput) : World :=
  (generate_report (sample_env a) "uploads/patients.csv" a (lower (rp_format i))
     (add_widgets (before_assembly a i) [Markdown "## Generate Report"])).2.

Definition sample_pdf : list Byte.byte := [Byte.x25; Byte.x50; Byte.x44; Byte.x46].

Definition generate_standard : ReportInput :=
  {| rp_feature := None;
     rp_options := ["Executive Summary"; "Data Overview"; "Key Insights"; "Visualizations"];
     rp_format := "Standard"; rp_generate := true |}.

Definition generate_detailed : ReportInput :=
  {| rp_feature := None;
     rp_options := ["Executive Summary"; "Data Overview"; "Key Insights"; "Visualizations"];
     rp_format := "Detailed"; rp_generate := true |}.

Definition assembly_refused : Exn :=
  MkExn AssemblyError "analysis failed: model unavailable".

Definition sample_report (id created_at : Z) (filename : string) : ReportRecord :=
  {| rec_id := id; rec_filename := filename; rec_report_path := "";
     rec_report_type := "quick_summary"; rec_analysis := basic_result;
     rec_metadata := ∅; rec_created_at := created_at |}.

(** Three reports, the last two created in the same second. *)
Definition sample_store : Store :=
  {| reports := [ sample_report 1 100 "a.csv"; sample_report 2 200 "b.csv";
                  sample_report 3 200 "c.csv" ];
     summaries := []; available := true |}.

Definition view_report (id : Z) : HistoryInput := {| hi_query := ""; hi_view := Some id |}.

Definition search_history (q : string) : HistoryInput :=
  {| hi_query := q; hi_view := None |}.

(** A fresh session over [sample_store] with one quick summary for
    report 2, shortly after the reports were saved. *)
Definition stored_world : World :=
  {| session := initial_session; fs := ∅;
     db := {| reports := reports sample_store;
              summaries := [ {| summary_report_id := 2; summary_text := "bmi is normal" |} ];
              available := true |};
     screen := []; db_log := []; agent_log := []; clock := 300 |}.

Definition browse_history : HistoryInput := {| hi_query := ""; hi_view := None |}.

Definition upload_only (f : UploadedFile) : UploadInput :=
  {| up_file := Some f; up_analysis_type := None; up_run := false; up_feature := None |}.

(** A session with results for [patients.csv], in which a file that
    does not parse is uploaded next. *)
Definition upload_broken_after (a : AnalysisResult) : World :=
  (show_upload_and_analyze (sample_env a) (upload_only broken_upload)
     (analysed_world a)).2.

Definition run_analysis (f : UploadedFile) : UploadInput :=
  {| up_file := Some f; up_analysis_type := None; up_run := true; up_feature := None |}.

(** ** Facts about tables *)

Lemma sum_bools_isnull (l : list Cell) :
  sum_bools (cell_isnull <$> l) = Z.of_nat (missing_in_row l).
Proof.
  unfold missing_in_row.
  induction l as [|c l IH]; [reflexivity|].
  rewrite fmap_cons, filter_cons. cbn [sum_bools foldr].
  fold (sum_bools (cell_isnull <$> l)). rewrite IH.
  destruct c as [x|]; cbn [cell_isnull bool_to_Z].
  - case_decide; [discriminate|]. lia.
  - case_decide; [|congruence]. cbn [length]. lia.
Qed.

Lemma lookup_all_positions {A} (dflt : A) (l : list A) :
  (λ i, default dflt (l !! i)) <$> seq 0 (length l) = l.
Proof.
  induction l as [|x l IH]; [reflexivity|].
  cbn [length seq]. rewrite fmap_cons. f_equal.
  rewrite <- fmap_S_seq, <- list_fmap_compose. exact IH.
Qed.

Lemma missing_in_row_cons (x : Cell) (r : list Cell) :
  missing_in_row (x :: r)
  = ((if decide (x = None) then 1 else 0) + missing_in_row r)%nat.
Proof. unfold missing_in_row. rewrite filter_cons. case_decide; reflexivity. Qed.

Lemma missing_in_rows_cons (c : Column) (cs : list Column) (positions : list nat) :
  sum_list ((λ i, missing_in_row
                    ((λ c', default None (col_cells c' !! i)) <$> c :: cs)) <$> positions)
  = (missing_in_row ((λ i, default None (col_cells c !! i)) <$> positions)
     + sum_list ((λ i, missing_in_row
                         ((λ c', default None (col_cells c' !! i)) <$> cs)) <$> positions))%nat.
Proof.
  induction positions as [|i positions IH]; [reflexivity|].
  rewrite !fmap_cons. cbn [sum_list sum_list_with id].
  change (sum_list_with id ?l) with (sum_list l) in *.
  rewrite IH, !missing_in_row_cons. lia.
Qed.

Lemma sum_list_zeros {A} (l : list A) : sum_list ((λ _, 0%nat) <$> l) = 0%nat.
Proof. induction l as [|x l IH]; [reflexivity|]. rewrite fmap_cons. exact IH. Qed.

Lemma missing_by_columns (cs : list Column) (n : nat) :
  Forall (λ c, length (col_cells c) = n) cs →
  sum_list ((λ i, missing_in_row
                    ((λ c, default None (col_cells c !! i)) <$> cs)) <$> seq 0 n)
  = sum_list ((λ c, missing_in_row (col_cells c)) <$> cs).
Proof.
  induction 1 as [|c cs Hc Hcs IH].
  - apply (sum_list_zeros (seq 0 n)).
  - rewrite missing_in_rows_cons, IH, fmap_cons. cbn [sum_list sum_list_with id].
    rewrite <- Hc at 1. rewrite lookup_all_positions. reflexivity.
Qed.

Lemma missing_values_by_columns (d : DataFrame) :
  missing_values d
  = Z.of_nat (sum_list ((λ c, missing_in_row (col_cells c)) <$> df_columns d)).
Proof.
  unfold missing_values, isnull. induction (df_columns d) as [|c cs IH]; [reflexivity|].
  unfold frame_sum, series_sum in *. rewrite !fmap_cons.
  cbn [foldr fst snd sum_list sum_list_with id]. rewrite IH, sum_bools_isnull.
  change (sum_list_with id ?l) with (sum_list l). lia.
Qed.

Lemma missing_values_by_rows (d : DataFrame) :
  df_wf d → missing_values d = Z.of_nat (missing_cells d).
Proof.
  intros Hwf. rewrite missing_values_by_columns. f_equal.
  unfold missing_cells, rows, row_at. rewrite <- list_fmap_compose.
  symmetry. apply missing_by_columns, Hwf.
Qed.

Lemma df_len_rows (d : DataFrame) : df_len d = Z.of_nat (length (rows d)).
Proof. unfold df_len, rows. rewrite length_fmap, length_seq. reflexivity. Qed.

Lemma row_width (d : DataFrame) (r : list Cell) :
  r ∈ rows d → columns_len d = Z.of_nat (length r).
Proof.
  unfold rows. intros Hr. apply list_elem_of_fmap in Hr as (i & -> & _).
  unfold row_at, columns_len. rewrite length_fmap. reflexivity.
Qed.

(** ** The monad *)

Lemma bind_run {A B} (m : M A) (k : A → M B) (w : World) :
  (m ≫= k) w = match m w with
               | (Ok a, w') => k a w'
               | (Raise e, w') => (Raise e, w')
               end.
Proof. reflexivity. Qed.

Lemma bind_ok {A B} (m : M A) (k : A → M B) (w w' : World) (a : A) :
  m w = (Ok a, w') → (m ≫= k) w = k a w'.
Proof. intros H. rewrite bind_run, H. reflexivity. Qed.

Lemma bind_raise {A B} (m : M A) (k : A → M B) (w w' : World) (e : Exn) :
  m w = (Raise e, w') → (m ≫= k) w = (Raise e, w').
Proof. intros H. rewrite bind_run, H. reflexivity. Qed.

Lemma extends_refl (w : World) : extends w w.
Proof. repeat split; reflexivity. Qed.

Lemma extends_trans (w1 w2 w3 : World) : extends w1 w2 → extends w2 w3 → extends w1 w3.
Proof. intros (?&?&?) (?&?&?). repeat split; etrans; eassumption. Qed.

Lemma extends_show (w : World) (x : Widget) : extends w (show x w).2.
Proof. repeat split; cbn; [apply prefix_app_r|..]; reflexivity. Qed.

Lemma monotone_ret {A} (a : A) : monotone (mret a : M A).
Proof. intros w. apply extends_refl. Qed.

Lemma monotone_raise {A} (e : Exn) : monotone (raise e : M A).
Proof. intros w. apply extends_refl. Qed.

Lemma monotone_lift {A} (r : result A) : monotone (lift r).
Proof. intros w. apply extends_refl. Qed.

Lemma monotone_bind {A B} (m : M A) (k : A → M B) :
  monotone m → (∀ a, monotone (k a)) → monotone (m ≫= k).
Proof.
  intros Hm Hk w. rewrite bind_run. specialize (Hm w).
  destruct (m w) as [[a|e] w']; cbn in *; [|exact Hm].
  eapply extends_trans; [exact Hm|apply Hk].
Qed.

Lemma monotone_try_except {A} (body : M A) (handler : Exn → M A) :
  monotone body → (∀ e, monotone (handler e)) → monotone (try_except body handler).
Proof.
  intros Hb Hh w. unfold try_except. specialize (Hb w).
  destruct (body w) as [[a|e] w']; cbn in *; [exact Hb|].
  eapply extends_trans; [exact Hb|apply Hh].
Qed.

Lemma monotone_get_session : monotone get_session.
Proof. intros w. apply extends_refl. Qed.

Lemma monotone_get_clock : monotone get_clock.
Proof. intros w. apply extends_refl. Qed.

Lemma monotone_put_session (s : Session) : monotone (put_session s).
Proof. intros w. repeat split; reflexivity. Qed.

Lemma monotone_show (x : Widget) : monotone (show x).
Proof. intros w. apply extends_show. Qed.

Lemma monotone_write_file (path : string) (data : list Byte.byte) :
  monotone (write_file path data).
Proof. intros w. repeat split; reflexivity. Qed.

Lemma monotone_read_file (path : string) : monotone (read_file path).
Proof. intros w. unfold read_file. destruct (fs w !! path); apply extends_refl. Qed.

Lemma monotone_db_update {A} (op : Store → result A * Store) (call : result A → DbCall) :
  monotone (db_update op call).
Proof.
  intros w. unfold db_update. destruct (op (db w)) as [r s'].
  repeat split; cbn; [|apply prefix_app_r|]; reflexivity.
Qed.

Lemma monotone_db_query {A} (op : Store → result A) (call : DbCall) :
  monotone (db_query op call).
Proof. intros w. repeat split; cbn; [|apply prefix_app_r|]; reflexivity. Qed.

Lemma monotone_for_each {A} (l : list A) (body : A → M unit) :
  (∀ x, monotone (body x)) → monotone (for_each l body).
Proof.
  intros Hb. induction l as [|x l IH]; cbn [for_each].
  - apply monotone_ret.
  - apply monotone_bind; [apply Hb|intros _; exact IH].
Qed.

Create HintDb mono discriminated.

#[export] Hint Resolve monotone_ret monotone_raise monotone_lift monotone_get_session
  monotone_get_clock monotone_put_session monotone_show monotone_write_file
  monotone_read_file monotone_db_update monotone_db_query : mono.

(** Splits an action along its binds, loops and branches. *)
Ltac mono :=
  repeat first
    [ progress intros
    | apply monotone_bind
    | apply monotone_try_except
    | apply monotone_for_each
    | solve [auto with mono]
    | match goal with
      | |- monotone (match ?x with _ => _ end) => destruct x
      | |- monotone (if ?b then _ else _) => destruct b
      | |- monotone (let _ := _ in _) => cbv zeta
      end ].

Lemma monotone_set_current_file (p : string) : monotone (set_current_file p).
Proof. unfold set_current_file. mono. Qed.

Lemma monotone_set_df (d : DataFrame) : monotone (set_df d).
Proof. unfold set_df. mono. Qed.

Lemma monotone_set_analysis_results (r : AnalysisResult) :
  monotone (set_analysis_results r).
Proof. unfold set_analysis_results. mono. Qed.

Lemma monotone_set_selected_report (id : Z) : monotone (set_selected_report id).
Proof. unfold set_selected_report. mono. Qed.

#[export] Hint Resolve monotone_set_current_file monotone_set_df
  monotone_set_analysis_results monotone_set_selected_report : mono.

(** Runs the state passing of an action on its world. *)
Ltac run :=
  cbv beta iota zeta delta
    [mbind M_bind mret M_ret lift raise show get_session get_clock put_session
     set_current_file set_df set_analysis_results set_selected_report write_file
     read_file try_except add_widgets for_each];
  cbn [fst snd session fs db screen db_log agent_log clock current_file
       analysis_results df selected_report].

Section PageFacts.

Variable env : Collaborators.

Lemma monotone_draw (c : Chart) : monotone (draw env c).
Proof. unfold draw. mono. Qed.

Lemma monotone_show_analysis_tabs d r feature :
  monotone (show_analysis_tabs env d r feature).
Proof. unfold show_analysis_tabs, show_bullets. pose proof monotone_draw. mono. Qed.

Lemma monotone_analysis_section d i : monotone (analysis_section env d i).
Proof. unfold analysis_section. pose proof monotone_show_analysis_tabs. mono. Qed.

Lemma monotone_quick_summary_save d f a : monotone (quick_summary_save d f a).
Proof.
  unfold quick_summary_save, db_save_report, db_save_quick_summary. mono.
Qed.

Lemma monotone_show_report_entry view r : monotone (show_report_entry view r).
Proof. unfold show_report_entry. mono. Qed.

Lemma load_upload_raise (f : UploadedFile) (e : Exn) (w : World) :
  read_csv env (uf_buffer f) = Raise e →
  load_upload env f w =
  (Raise e,
   {| session := {| current_file := Some (path_join "uploads" (uf_name f));
                    analysis_results := analysis_results (session w);
                    df := df (session w);
                    selected_report := selected_report (session w) |};
      fs := <[path_join "uploads" (uf_name f) := uf_buffer f]> (fs w);
      db := db w; screen := screen w; db_log := db_log w; agent_log := agent_log w;
      clock := clock w |}).
Proof.
  intros H. unfold load_upload, read_csv_path. run.
  rewrite lookup_insert_eq, H. reflexivity.
Qed.

Lemma load_upload_ok (f : UploadedFile) (d : DataFrame) (w : World) :
  read_csv env (uf_buffer f) = Ok d →
  load_upload env f w =
  (Ok d,
   {| session := {| current_file := Some (path_join "uploads" (uf_name f));
                    analysis_results := analysis_results (session w);
                    df := Some d;
                    selected_report := selected_report (session w) |};
      fs := <[path_join "uploads" (uf_name f) := uf_buffer f]> (fs w);
      db := db w; screen := screen w; db_log := db_log w; agent_log := agent_log w;
      clock := clock w |}).
Proof.
  intros H. unfold load_upload, read_csv_path. run.
  rewrite lookup_insert_eq, H. reflexivity.
Qed.

Lemma show_overview_run (d : DataFrame) (w : World) :
  show_overview d w =
  (Ok tt,
   add_widgets w
     [ MetricCard (df_len d) "Records";
       MetricCard (columns_len d) "Features";
       MetricCard (columns_len (select_numeric d)) "Numeric Cols";
       MetricCard (missing_values d) "Missing Values";
       Markdown "### Data Preview";
       DataFrameView (head d) ]).
Proof. unfold show_overview. run. rewrite <- !app_assoc. reflexivity. Qed.

Lemma quick_overview_run (d : DataFrame) (w : World) :
  quick_overview d w =
  (Ok tt,
   add_widgets w
     [ Markdown "### Dataset Overview";
       Metric "Total Records" (df_len d);
       Metric "Features" (columns_len d);
       Metric "Missing Values" (missing_values d) ]).
Proof. unfold quick_overview. run. rewrite <- !app_assoc. reflexivity. Qed.

End PageFacts.

(** ** The Upload & Analyze page *)

(** C1, as the script behaves: when the upload cannot be parsed as CSV,
    the page ends normally with the error shown as a message; no table
    and no analysis result is stored in the session for that upload
    (both keys keep their values), the store is untouched, and the raw
    bytes have been persisted to the upload area before parsing. *)
Theorem upload_parse_failure_recovered (env : Collaborators) (i : UploadInput)
    (f : UploadedFile) (e : Exn) (w : World) :
  file_uploader ["csv"] (up_file i) = Some f →
  read_csv env (uf_buffer f) = Raise e →
  let r := show_upload_and_analyze env i w in
  r.1 = Ok tt ∧
  df (session r.2) = df (session w) ∧
  analysis_results (session r.2) = analysis_results (session w) ∧
  screen r.2 = screen w ++ [ Title "Medical Data Analysis 🔬";
                             ErrorMsg ("Error processing file: " +:+ exn_msg e) ] ∧
  fs r.2 = <[path_join "uploads" (uf_name f) := uf_buffer f]> (fs w) ∧
  db r.2 = db w ∧
  db_log r.2 = db_log w.
Proof.
  intros Hup Hparse. cbv zeta.
  unfold show_upload_and_analyze. rewrite Hup.
  rewrite bind_run. cbn [show]. unfold show at 1.
  unfold try_except, upload_body.
  erewrite bind_raise by (apply load_upload_raise; exact Hparse).
  run. rewrite <- app_assoc. repeat split.
Qed.

Lemma upload_parse_failure_recovered_witness :
  let r := show_upload_and_analyze (sample_env basic_result) (upload_only broken_upload)
             initial_world in
  r.1 = Ok tt ∧ df (session r.2) = None ∧ analysis_results (session r.2) = None.
Proof.
  pose proof (upload_parse_failure_recovered (sample_env basic_result)
                (upload_only broken_upload) broken_upload parse_error initial_world
                eq_refl eq_refl) as H.
  cbv zeta in *. destruct H as (H1 & H2 & H3 & _).
  split; [exact H1|]. split; [exact H2|exact H3].
Defined.

(** C1, as stated, fails: after an upload that cannot be parsed the
    session does hold a current-file reference for it, because
    [current_file] is assigned before the file is read back. *)
Lemma upload_parse_failure_changes_session :
  let w' := (show_upload_and_analyze (sample_env basic_result) (upload_only broken_upload)
               initial_world).2 in
  read_csv (sample_env basic_result) (uf_buffer broken_upload) = Raise parse_error ∧
  current_file (session initial_world) = None ∧
  current_file (session w') = Some "uploads/broken.csv" ∧
  session w' ≠ session initial_world.
Proof.
  cbv zeta. split; [reflexivity|]. split; [reflexivity|].
  assert (current_file (session (show_upload_and_analyze (sample_env basic_result)
            (upload_only broken_upload) initial_world).2) = Some "uploads/broken.csv")
    as H by (vm_compute; reflexivity).
  split; [exact H|]. intros Heq. rewrite Heq in H. discriminate H.
Qed.

Lemma show_run (x : Widget) (w : World) : show x w = (Ok tt, add_widgets w [x]).
Proof. reflexivity. Qed.

Lemma add_widgets_app (w : World) (l k : list Widget) :
  add_widgets (add_widgets w l) k = add_widgets w (l ++ k).
Proof. unfold add_widgets. cbn. rewrite <- app_assoc. reflexivity. Qed.

Lemma sample_table_wf : df_wf sample_table.
Proof. unfold df_wf. repeat constructor. Qed.

(** C3: for a table [d] that was loaded, the statistics on display are
    functions of the table alone: Records is the number of its rows,
    Features the number of its columns and Missing Values the number of
    its missing cells, on the Upload & Analyze page (lines 118-151) and
    on the Quick Summary page (lines 349-357). A table of 100 rows and
    5 columns with 3 missing cells is shown as 100, 5 and 3. *)
Theorem displayed_statistics (env : Collaborators) (d : DataFrame) :
  df_wf d →
  let records := Z.of_nat (length (rows d)) in
  let features := Z.of_nat (length (df_columns d)) in
  let missing := Z.of_nat (missing_cells d) in
  (∀ i f w,
     file_uploader ["csv"] (up_file i) = Some f →
     read_csv env (uf_buffer f) = Ok d →
     ∃ shown,
       screen (show_upload_and_analyze env i w).2 =
       screen w ++ [ Title "Medical Data Analysis 🔬";
                     MetricCard records "Records";
                     MetricCard features "Features";
                     MetricCard (columns_len (select_numeric d)) "Numeric Cols";
                     MetricCard missing "Missing Values" ] ++ shown) ∧
  (∀ chosen f w,
     file_uploader ["csv"; "xlsx"] chosen = Some f →
     read_csv env (uf_buffer f) = Ok d →
     ∃ shown,
       screen (show_quick_summary env chosen w).2 =
       screen w ++ [ Title "Quick Summary 📋";
                     Markdown "### Dataset Overview";
                     Metric "Total Records" records;
                     Metric "Features" features;
                     Metric "Missing Values" missing ] ++ shown).
Proof.
  intros Hwf. cbv zeta.
  rewrite <- df_len_rows, <- (missing_values_by_rows d Hwf).
  change (Z.of_nat (length (df_columns d))) with (columns_len d).
  split.
  - intros i f w Hup Hparse.
    unfold show_upload_and_analyze. rewrite Hup, bind_run, show_run.
    unfold try_except, upload_body.
    erewrite bind_ok by (apply load_upload_ok; exact Hparse).
    erewrite bind_ok by apply show_overview_run.
    match goal with |- context [analysis_section env d i ?w0] =>
      pose proof (monotone_analysis_section env d i w0) as Hm;
      destruct (analysis_section env d i w0) as [[[]|e] w1]
    end; destruct Hm as ((k & Hk) & _); cbn in Hk.
    + exists ([Markdown "### Data Preview"; DataFrameView (head d)] ++ k).
      cbn [snd]. rewrite Hk, <- !app_assoc. reflexivity.
    + exists ([Markdown "### Data Preview"; DataFrameView (head d)] ++ k
              ++ [ErrorMsg ("Error processing file: " +:+ exn_msg e)]).
      rewrite show_run. cbn [snd add_widgets screen].
      rewrite Hk, <- !app_assoc. reflexivity.
  - intros chosen f w Hup Hparse.
    unfold show_quick_summary. rewrite Hup, bind_run, show_run.
    rewrite bind_run. unfold lift at 1. rewrite Hparse.
    erewrite bind_ok by apply quick_overview_run.
    match goal with |- context [(?m ≫= ?k) ?w0] =>
      assert (monotone (m ≫= k)) as Hm
        by (pose proof (monotone_quick_summary_save d f); mono);
      specialize (Hm w0); destruct Hm as ((l & Hl) & _);
      exists l; rewrite Hl
    end.
    cbn [snd add_widgets screen]. rewrite <- !app_assoc. reflexivity.
Qed.

Lemma displayed_statistics_witness :
  (∃ shown,
     screen (show_upload_and_analyze (sample_env basic_result) (upload_only csv_upload)
               initial_world).2 =
     [ Title "Medical Data Analysis 🔬"; MetricCard 100 "Records";
       MetricCard 5 "Features"; MetricCard 4 "Numeric Cols";
       MetricCard 3 "Missing Values" ] ++ shown) ∧
  (∃ shown,
     screen (show_quick_summary (sample_env basic_result) (Some csv_upload)
               initial_world).2 =
     [ Title "Quick Summary 📋"; Markdown "### Dataset Overview";
       Metric "Total Records" 100; Metric "Features" 5;
       Metric "Missing Values" 3 ] ++ shown).
Proof.
  destruct (displayed_statistics (sample_env basic_result) sample_table sample_table_wf)
    as [Hupload Hquick].
  split.
  - exact (Hupload (upload_only csv_upload) csv_upload initial_world eq_refl eq_refl).
  - exact (Hquick (Some csv_upload) csv_upload initial_world eq_refl eq_refl).
Defined.

(** ** The store *)

Lemma fresh_id_above (rs : list ReportRecord) (r : ReportRecord) :
  r ∈ rs → rec_id r < DatabaseManager.fresh_id rs.
Proof.
  unfold DatabaseManager.fresh_id. induction rs as [|x rs IH]; intros Hin.
  - inversion Hin.
  - rewrite fmap_cons. cbn [foldr]. apply elem_of_cons in Hin as [->|Hin].
    + lia.
    + specialize (IH Hin). lia.
Qed.

Lemma find_report_app_new (id : Z) (rs : list ReportRecord) (r : ReportRecord) :
  (∀ x, x ∈ rs → rec_id x ≠ id) → rec_id r = id →
  DatabaseManager.find_report id (rs ++ [r]) = Some r.
Proof.
  intros Hold Hr. unfold DatabaseManager.find_report.
  induction rs as [|x rs IH]; cbn.
  - rewrite bool_decide_eq_true_2 by exact Hr. reflexivity.
  - rewrite bool_decide_eq_false_2 by (apply Hold; left).
    apply IH. intros y Hy. apply Hold. right. exact Hy.
Qed.

Lemma find_report_fresh (rs : list ReportRecord) (r : ReportRecord) :
  rec_id r = DatabaseManager.fresh_id rs →
  DatabaseManager.find_report (DatabaseManager.fresh_id rs) (rs ++ [r]) = Some r.
Proof.
  intros Hr. apply find_report_app_new; [|exact Hr].
  intros x Hx. pose proof (fresh_id_above rs x Hx). lia.
Qed.

Lemma find_report_id (id : Z) (rs : list ReportRecord) (r : ReportRecord) :
  DatabaseManager.find_report id rs = Some r → rec_id r = id ∧ r ∈ rs.
Proof.
  unfold DatabaseManager.find_report. induction rs as [|x rs IH]; cbn; [discriminate|].
  case_bool_decide as Hx.
  - intros [= ->]. split; [exact Hx|left].
  - intros H. destruct (IH H) as [? ?]. split; [assumption|right; assumption].
Qed.

(** ** The Quick Summary page *)

Lemma for_each_show {A} (g : A → Widget) (l : list A) (w : World) :
  for_each l (λ x, show (g x)) w = (Ok tt, add_widgets w (g <$> l)).
Proof.
  revert w. induction l as [|x l IH]; intros w.
  - unfold add_widgets. cbn. rewrite app_nil_r. destruct w; reflexivity.
  - cbn [for_each]. rewrite bind_run, show_run, IH, add_widgets_app. reflexivity.
Qed.

Lemma show_insights_run (a : AnalysisResult) (w : World) :
  match insights a with
  | Some l => for_each l (λ insight, show (InfoMsg insight))
  | None => mret tt
  end w = (Ok tt, add_widgets w (InfoMsg <$> default [] (insights a))).
Proof.
  destruct (insights a) as [l|]; cbn [default].
  - apply for_each_show.
  - unfold add_widgets. cbn. rewrite app_nil_r. destruct w; reflexivity.
Qed.

Lemma quick_summary_save_error d f a msg w :
  error a = Some msg →
  quick_summary_save d f a w =
  (Ok tt, add_widgets w [ErrorMsg "Failed to generate summary. Please try again."]).
Proof. intros H. unfold quick_summary_save. rewrite H. reflexivity. Qed.

Lemma quick_summary_save_ok d f a w :
  error a = None → available (db w) = true →
  quick_summary_save d f a w = (Ok tt, after_quick_save w f d a).
Proof.
  intros Herr Hav. unfold quick_summary_save. rewrite Herr.
  erewrite bind_ok by apply show_insights_run.
  unfold db_save_report, db_save_quick_summary, db_update,
    DatabaseManager.save_report, DatabaseManager.save_quick_summary.
  run. rewrite Hav. run. cbn [reports summaries available].
  rewrite find_report_fresh by reflexivity. run.
  unfold after_quick_save, quick_record. cbv zeta.
  rewrite <- !app_assoc. reflexivity.
Qed.

Lemma quick_summary_save_unavailable d f a w :
  error a = None → available (db w) = false →
  quick_summary_save d f a w =
  (Raise DatabaseManager.storage_error, after_failed_save w f d a).
Proof.
  intros Herr Hav. unfold quick_summary_save. rewrite Herr.
  erewrite bind_ok by apply show_insights_run.
  unfold db_save_report, db_update, DatabaseManager.save_report.
  run. rewrite Hav. reflexivity.
Qed.

Lemma show_quick_summary_run (env : Collaborators) (chosen : option UploadedFile)
    (w : World) :
  show_quick_summary env chosen w =
  match file_uploader ["csv"; "xlsx"] chosen with
  | None => (Ok tt, add_widgets w [Title "Quick Summary 📋"])
  | Some f =>
      match read_csv env (uf_buffer f) with
      | Raise e => (Raise e, add_widgets w [Title "Quick Summary 📋"])
      | Ok d =>
          match analyze env d "basic" with
          | Raise e => (Raise e, add_widgets w (quick_header d))
          | Ok a => quick_summary_save d f a (add_widgets w (quick_header d))
          end
      end
  end.
Proof.
  unfold show_quick_summary. rewrite bind_run, show_run.
  destruct (file_uploader ["csv"; "xlsx"] chosen) as [f|]; [|reflexivity].
  rewrite bind_run. unfold lift at 1.
  destruct (read_csv env (uf_buffer f)) as [d|e]; [|reflexivity].
  erewrite bind_ok by apply quick_overview_run.
  rewrite bind_run, show_run, !add_widgets_app. cbn [app].
  rewrite bind_run. unfold lift at 1.
  destruct (analyze env d "basic") as [a|e]; reflexivity.
Qed.

(** How a run of the Quick Summary page ends: nothing was handed to the
    store, or the store refused the record, or record and summary were
    both saved. *)
Lemma show_quick_summary_cases (env : Collaborators) (chosen : option UploadedFile)
    (w : World) :
  let r := show_quick_summary env chosen w in
  (db r.2 = db w ∧ db_log r.2 = db_log w) ∨
  (∃ f d a,
     file_uploader ["csv"; "xlsx"] chosen = Some f ∧
     read_csv env (uf_buffer f) = Ok d ∧ analyze env d "basic" = Ok a ∧
     error a = None ∧
     ((available (db w) = false ∧
       r = (Raise DatabaseManager.storage_error,
            after_failed_save (add_widgets w (quick_header d)) f d a)) ∨
      (available (db w) = true ∧
       r = (Ok tt, after_quick_save (add_widgets w (quick_header d)) f d a)))).
Proof.
  cbv zeta. rewrite show_quick_summary_run.
  destruct (file_uploader ["csv"; "xlsx"] chosen) as [f|] eqn:Hup; [|left; split; reflexivity].
  destruct (read_csv env (uf_buffer f)) as [d|e] eqn:Hparse; [|left; split; reflexivity].
  destruct (analyze env d "basic") as [a|e] eqn:Han; [|left; split; reflexivity].
  destruct (error a) as [msg|] eqn:Herr.
  - left. rewrite (quick_summary_save_error d f a msg) by exact Herr. split; reflexivity.
  - right. exists f, d, a. repeat (split; [first [assumption|reflexivity]|]).
    destruct (available (db w)) eqn:Hav.
    + right. split; [reflexivity|]. apply quick_summary_save_ok; assumption.
    + left. split; [reflexivity|]. apply quick_summary_save_unavailable; assumption.
Qed.

(** C2: when the analysis result of the Quick Summary flow carries an
    [error] key, the page shows the error message instead of saving: no
    Report Record and no Quick Summary are handed to the store, and the
    store is unchanged. *)
Theorem quick_summary_error_not_saved (env : Collaborators)
    (chosen : option UploadedFile) (f : UploadedFile) (d : DataFrame)
    (a : AnalysisResult) (msg : string) (w : World) :
  file_uploader ["csv"; "xlsx"] chosen = Some f →
  read_csv env (uf_buffer f) = Ok d →
  analyze env d "basic" = Ok a →
  error a = Some msg →
  let r := show_quick_summary env chosen w in
  r.1 = Ok tt ∧
  db r.2 = db w ∧
  db_log r.2 = db_log w ∧
  screen r.2 = screen w ++ quick_header d
                 ++ [ErrorMsg "Failed to generate summary. Please try again."].
Proof.
  intros Hup Hparse Han Herr. cbv zeta.
  rewrite show_quick_summary_run, Hup, Hparse, Han.
  rewrite (quick_summary_save_error d f a msg) by exact Herr.
  cbn. rewrite <- !app_assoc. repeat split.
Qed.

Lemma quick_summary_error_not_saved_witness :
  let r := show_quick_summary (sample_env failed_result) (Some csv_upload) initial_world in
  r.1 = Ok tt ∧ db r.2 = empty_store ∧ db_log r.2 = [].
Proof.
  pose proof (quick_summary_error_not_saved (sample_env failed_result) (Some csv_upload)
                csv_upload sample_table failed_result "model unavailable" initial_world
                eq_refl eq_refl eq_refl eq_refl) as H.
  cbv zeta in *. destruct H as (H1 & H2 & H3 & _).
  split; [exact H1|]. split; [exact H2|exact H3].
Defined.

(** C9: the Quick Summary uploader accepts [csv] and [xlsx] files, and
    whatever it accepts goes through the CSV parser: a table that parses
    is put on display, and a parse exception is not caught by the page:
    it escapes [show_quick_summary] with nothing but the title rendered,
    so no error message is shown for it. *)
Theorem quick_summary_parse_failure_escapes (env : Collaborators) (f : UploadedFile)
    (w : World) :
  extension (uf_name f) = Some "csv" ∨ extension (uf_name f) = Some "xlsx" →
  file_uploader ["csv"; "xlsx"] (Some f) = Some f ∧
  (∀ d, read_csv env (uf_buffer f) = Ok d →
        ∃ shown, screen (show_quick_summary env (Some f) w).2
                 = screen w ++ quick_header d ++ shown) ∧
  (∀ e, read_csv env (uf_buffer f) = Raise e →
        show_quick_summary env (Some f) w
        = (Raise e, add_widgets w [Title "Quick Summary 📋"])).
Proof.
  intros Hext.
  assert (file_uploader ["csv"; "xlsx"] (Some f) = Some f) as Hup.
  { unfold file_uploader. destruct Hext as [-> | ->]; reflexivity. }
  split; [exact Hup|]. split.
  - intros d Hparse. rewrite show_quick_summary_run, Hup, Hparse.
    destruct (analyze env d "basic") as [a|e].
    + pose proof (monotone_quick_summary_save d f a (add_widgets w (quick_header d)))
        as ((k & Hk) & _).
      exists k. rewrite Hk. cbn. rewrite <- app_assoc. reflexivity.
    + exists []. cbn. rewrite ?app_nil_r. reflexivity.
  - intros e Hparse. rewrite show_quick_summary_run, Hup, Hparse. reflexivity.
Qed.

Lemma quick_summary_parse_failure_escapes_witness :
  file_uploader ["csv"; "xlsx"] (Some xlsx_upload) = Some xlsx_upload ∧
  show_quick_summary (sample_env basic_result) (Some xlsx_upload) initial_world
  = (Raise parse_error, add_widgets initial_world [Title "Quick Summary 📋"]).
Proof.
  destruct (quick_summary_parse_failure_escapes (sample_env basic_result) xlsx_upload
              initial_world (or_intror eq_refl)) as (H1 & _ & H3).
  split; [exact H1|]. exact (H3 parse_error eq_refl).
Defined.

Lemma quick_metadata_dom (d : DataFrame) (f : UploadedFile) :
  dom (quick_metadata d f) = ({["rows"; "columns"; "file_type"]} : gset string).
Proof.
  unfold quick_metadata. rewrite !dom_insert_L, dom_empty_L. set_solver.
Qed.

Lemma quick_metadata_lookup (d : DataFrame) (f : UploadedFile) :
  quick_metadata d f !! "rows" = Some (MInt (Z.of_nat (length (rows d)))) ∧
  quick_metadata d f !! "columns" = Some (MInt (Z.of_nat (length (df_columns d)))) ∧
  quick_metadata d f !! "file_type" = Some (MStr (uf_type f)).
Proof.
  unfold quick_metadata. rewrite <- df_len_rows.
  split; [|split]; reflexivity.
Qed.

(** C5: every Report Record that a run of the Quick Summary page adds
    to the store, and every [save_report] call it makes, has report
    type "quick_summary", an empty report file path, and a metadata
    mapping with exactly the keys [rows], [columns] and [file_type],
    bound to the row count and the column count of the parsed table and
    to the type of the uploaded file; a run whose analysis succeeds on
    an available store adds one such record. *)
Theorem quick_summary_record_shape (env : Collaborators) (chosen : option UploadedFile)
    (w : World) :
  let r := show_quick_summary env chosen w in
  let quick_shape (path type : string) (metadata : gmap string MetaVal) : Prop :=
    type = "quick_summary" ∧
    path = "" ∧
    ∃ f d,
      file_uploader ["csv"; "xlsx"] chosen = Some f ∧
      read_csv env (uf_buffer f) = Ok d ∧
      dom metadata = ({["rows"; "columns"; "file_type"]} : gset string) ∧
      metadata !! "rows" = Some (MInt (Z.of_nat (length (rows d)))) ∧
      metadata !! "columns" = Some (MInt (Z.of_nat (length (df_columns d)))) ∧
      metadata !! "file_type" = Some (MStr (uf_type f)) in
  ∃ new calls,
    reports (db r.2) = reports (db w) ++ new ∧
    db_log r.2 = db_log w ++ calls ∧
    Forall (λ rec,
      quick_shape (rec_report_path rec) (rec_report_type rec) (rec_metadata rec)) new ∧
    (∀ filename path type analysis metadata returned,
       SaveReport filename path type analysis metadata returned ∈ calls →
       quick_shape path type metadata) ∧
    (∀ f d a,
       file_uploader ["csv"; "xlsx"] chosen = Some f →
       read_csv env (uf_buffer f) = Ok d →
       analyze env d "basic" = Ok a →
       error a = None →
       available (db w) = true →
       length new = 1%nat).
Proof.
  cbv zeta.
  destruct (show_quick_summary_cases env chosen w)
    as [[Hdb Hlog] | (f & d & a & Hup & Hparse & Han & Herr & [[Hav Hr] | [Hav Hr]])].
  - exists [], []. rewrite Hdb, Hlog, !app_nil_r.
    split; [reflexivity|]. split; [reflexivity|]. split; [constructor|].
    split; [intros ? ? ? ? ? ? Hin; inversion Hin|].
    intros f d a Hup Hparse Han Herr Hav. exfalso.
    revert Hdb. rewrite show_quick_summary_run, Hup, Hparse, Han.
    rewrite (quick_summary_save_ok d f a) by assumption.
    cbn [snd after_quick_save db add_widgets]. intros Hdb.
    apply (f_equal reports) in Hdb. cbn [reports] in Hdb.
    apply (f_equal length) in Hdb. rewrite length_app in Hdb. cbn [length] in Hdb. lia.
  - exists [], [SaveReport (uf_name f) "" "quick_summary" a (quick_metadata d f)
                  (Raise DatabaseManager.storage_error)].
    rewrite Hr, app_nil_r.
    split; [reflexivity|]. split; [reflexivity|]. split; [constructor|].
    split; [|intros; congruence].
    intros ? ? ? ? ? ? Hin. apply list_elem_of_singleton in Hin.
    injection Hin as -> -> -> -> -> ->.
    split; [reflexivity|]. split; [reflexivity|].
    exists f, d. split; [exact Hup|]. split; [exact Hparse|].
    split; [apply quick_metadata_dom|apply quick_metadata_lookup].
  - rewrite Hr. do 2 eexists. split; [reflexivity|]. split; [reflexivity|].
    split; [|split; [|reflexivity]].
    + constructor; [|constructor]. cbn [quick_record rec_report_type rec_report_path
                                        rec_metadata].
      split; [reflexivity|]. split; [reflexivity|].
      exists f, d. split; [exact Hup|]. split; [exact Hparse|].
      split; [apply quick_metadata_dom|apply quick_metadata_lookup].
    + intros ? ? ? ? ? ? Hin.
      apply elem_of_cons in Hin as [Hin|Hin];
        [|apply list_elem_of_singleton in Hin; discriminate Hin].
      injection Hin as -> -> -> -> -> ->.
      split; [reflexivity|]. split; [reflexivity|].
      exists f, d. split; [exact Hup|]. split; [exact Hparse|].
      split; [apply quick_metadata_dom|apply quick_metadata_lookup].
Qed.

Lemma quick_summary_record_shape_witness :
  ∃ rec,
    reports (db (show_quick_summary (sample_env basic_result) (Some csv_upload)
                   initial_world).2) = [rec] ∧
    rec_report_type rec = "quick_summary" ∧
    rec_report_path rec = "" ∧
    rec_metadata rec !! "rows" = Some (MInt 100).
Proof.
  destruct (quick_summary_record_shape (sample_env basic_result) (Some csv_upload)
              initial_world) as (new & calls & Hnew & _ & Hall & _ & Hlen).
  specialize (Hlen csv_upload sample_table basic_result eq_refl eq_refl eq_refl
                eq_refl eq_refl).
  destruct new as [|rec [|]]; try discriminate Hlen.
  exists rec. split; [exact Hnew|].
  apply Forall_cons in Hall as [(Ht & Hp & f & d & Hup & Hparse & _ & Hrows & _) _].
  split; [exact Ht|]. split; [exact Hp|].
  injection Hup as <-. injection Hparse as <-. exact Hrows.
Defined.

(** C6: in a run of the Quick Summary page, every call of
    [save_quick_summary] comes after a completed [save_report] call of
    the same run and uses the identifier that call returned; it is the
    last call made to the store, so neither record is touched again:
    the store ends up holding the record as it was saved together with
    the summary text, and what the store held before is still there. *)
Theorem quick_summary_after_report (env : Collaborators) (chosen : option UploadedFile)
    (w : World) :
  let r := show_quick_summary env chosen w in
  ∃ calls,
    db_log r.2 = db_log w ++ calls ∧
    reports (db w) `prefix_of` reports (db r.2) ∧
    summaries (db w) `prefix_of` summaries (db r.2) ∧
    ∀ before id text returned after,
      calls = before ++ SaveQuickSummary id text returned :: after →
      after = [] ∧
      returned = Ok tt ∧
      ∃ filename path type analysis metadata,
        SaveReport filename path type analysis metadata (Ok id) ∈ before ∧
        ∃ rec,
          DatabaseManager.get_report_details id (db r.2)
          = Ok (Some {| det_record := rec;
                        det_summaries :=
                          filter (λ q, summary_report_id q = id) (summaries (db r.2)) |}) ∧
          rec_id rec = id ∧ rec_filename rec = filename ∧
          rec_report_path rec = path ∧ rec_report_type rec = type ∧
          rec_analysis rec = analysis ∧ rec_metadata rec = metadata ∧
          {| summary_report_id := id; summary_text := text |} ∈ summaries (db r.2).
Proof.
  cbv zeta.
  destruct (show_quick_summary_cases env chosen w)
    as [[Hdb Hlog] | (f & d & a & Hup & Hparse & Han & Herr & [[Hav Hr] | [Hav Hr]])].
  - exists []. rewrite Hdb, Hlog, app_nil_r. repeat (split; [reflexivity|]).
    intros [|? ?] ? ? ? ? ?; discriminate.
  - exists [SaveReport (uf_name f) "" "quick_summary" a (quick_metadata d f)
              (Raise DatabaseManager.storage_error)].
    rewrite Hr. repeat (split; [reflexivity|]).
    intros [|? [|? ?]] ? ? ? ? ?; discriminate.
  - rewrite Hr. eexists. split; [reflexivity|].
    split; [apply prefix_app_r; reflexivity|].
    split; [apply prefix_app_r; reflexivity|].
    intros [|c [|c' [|? ?]]] id text returned after Hcalls;
      cbn [app] in Hcalls; try discriminate Hcalls.
    injection Hcalls as <- <- <- <- <-.
    split; [reflexivity|]. split; [reflexivity|].
    do 5 eexists. split; [left|]. 
    eexists. cbn [after_quick_save db snd]. 
    unfold DatabaseManager.get_report_details. cbn [available reports summaries].
    rewrite find_report_fresh by reflexivity.
    split; [reflexivity|]. repeat (split; [reflexivity|]).
    apply elem_of_app. right. left.
Qed.

Lemma quick_summary_after_report_witness :
  let r := show_quick_summary (sample_env basic_result) (Some csv_upload) initial_world in
  db_log r.2 =
  [ SaveReport "patients.csv" "" "quick_summary" basic_result
      (quick_metadata sample_table csv_upload) (Ok 1);
    SaveQuickSummary 1 (join_lines ["glucose is high"; "bmi is normal"]) (Ok tt) ] ∧
  ∃ rec,
    DatabaseManager.get_report_details 1 (db r.2)
    = Ok (Some {| det_record := rec;
                  det_summaries :=
                    filter (λ q, summary_report_id q = 1) (summaries (db r.2)) |}) ∧
    rec_filename rec = "patients.csv".
Proof.
  cbv zeta.
  destruct (quick_summary_after_report (sample_env basic_result) (Some csv_upload)
              initial_world) as (calls & Hlog & _ & _ & Hcalls).
  assert (db_log (show_quick_summary (sample_env basic_result) (Some csv_upload)
                    initial_world).2 =
          [ SaveReport "patients.csv" "" "quick_summary" basic_result
              (quick_metadata sample_table csv_upload) (Ok 1);
            SaveQuickSummary 1 (join_lines ["glucose is high"; "bmi is normal"]) (Ok tt) ])
    as Hrun by (vm_compute; reflexivity).
  split; [exact Hrun|].
  rewrite Hrun in Hlog. change (db_log initial_world ++ calls) with calls in Hlog.
  subst calls.
  destruct (Hcalls [SaveReport "patients.csv" "" "quick_summary" basic_result
                      (quick_metadata sample_table csv_upload) (Ok 1)]
              1 _ (Ok tt) [] eq_refl)
    as (_ & _ & fn & p & t & an & m & Hin & rec & Hdet & _ & Hfn & _).
  apply list_elem_of_singleton in Hin. injection Hin as -> _ _ _ _.
  exists rec. split; [exact Hdet|exact Hfn].
Defined.

(** C10: the text saved with a quick_summary report is the analysis
    result's [insights] joined by newline characters, and the empty
    string when the result has no [insights] key. *)
Theorem quick_summary_text (env : Collaborators) (chosen : option UploadedFile)
    (f : UploadedFile) (d : DataFrame) (a : AnalysisResult) (w : World) :
  file_uploader ["csv"; "xlsx"] chosen = Some f →
  read_csv env (uf_buffer f) = Ok d →
  analyze env d "basic" = Ok a →
  error a = None →
  available (db w) = true →
  let r := show_quick_summary env chosen w in
  let text := match insights a with
              | Some lines => String.concat newline lines
              | None => ""
              end in
  ∃ id,
    summaries (db r.2)
    = summaries (db w) ++ [ {| summary_report_id := id; summary_text := text |} ] ∧
    SaveQuickSummary id text (Ok tt) ∈ db_log r.2.
Proof.
  intros Hup Hparse Han Herr Hav. cbv zeta.
  rewrite show_quick_summary_run, Hup, Hparse, Han.
  rewrite (quick_summary_save_ok d f a) by assumption.
  exists (DatabaseManager.fresh_id (reports (db w))).
  assert (join_lines (default [] (insights a))
          = match insights a with
            | Some lines => String.concat newline lines
            | None => ""
            end) as <- by (destruct (insights a); reflexivity).
  split; [reflexivity|].
  cbn. apply elem_of_app. right. right. left.
Qed.

Lemma quick_summary_text_witness :
  summary_text <$>
    summaries (db (show_quick_summary (sample_env basic_result) (Some csv_upload)
                     initial_world).2)
  = ["glucose is high" +:+ newline +:+ "bmi is normal"].
Proof.
  destruct (quick_summary_text (sample_env basic_result) (Some csv_upload) csv_upload
              sample_table basic_result initial_world eq_refl eq_refl eq_refl eq_refl
              eq_refl) as (id & Hsum & _).
  rewrite Hsum. reflexivity.
Defined.

(** ** The report store: round trip and recency *)

(** C7: a [save] followed immediately by [getDetails] on the identifier
    it returned yields the record with the filename, the report type
    and the metadata (and the path and the analysis result) that were
    given to [save]. *)
Theorem save_then_get_details (now : Z) (filename path type : string)
    (analysis : AnalysisResult) (metadata : gmap string MetaVal)
    (s s' : Store) (id : Z) :
  DatabaseManager.save_report now filename path type analysis metadata s = (Ok id, s') →
  ∃ det,
    DatabaseManager.get_report_details id s' = Ok (Some det) ∧
    rec_id (det_record det) = id ∧
    rec_filename (det_record det) = filename ∧
    rec_report_type (det_record det) = type ∧
    rec_metadata (det_record det) = metadata ∧
    rec_report_path (det_record det) = path ∧
    rec_analysis (det_record det) = analysis.
Proof.
  unfold DatabaseManager.save_report, DatabaseManager.get_report_details.
  destruct (available s); [|discriminate].
  intros [= <- <-]. cbn [available reports summaries].
  rewrite find_report_fresh by reflexivity.
  eexists. split; [reflexivity|]. repeat split.
Qed.

Lemma save_then_get_details_witness :
  ∃ det,
    DatabaseManager.get_report_details 1
      (DatabaseManager.save_report 1700000000 "patients.csv" "" "quick_summary"
         basic_result (quick_metadata sample_table csv_upload) empty_store).2
    = Ok (Some det) ∧
    rec_filename (det_record det) = "patients.csv" ∧
    rec_report_type (det_record det) = "quick_summary" ∧
    rec_metadata (det_record det) = quick_metadata sample_table csv_upload.
Proof.
  destruct (save_then_get_details 1700000000 "patients.csv" "" "quick_summary"
              basic_result (quick_metadata sample_table csv_upload) empty_store
              _ 1 eq_refl) as (det & Hdet & _ & Hf & Ht & Hm & _).
  exists det. split; [exact Hdet|]. split; [exact Hf|]. split; [exact Ht|exact Hm].
Defined.

Global Instance newer_total : Total DatabaseManager.newer.
Proof. intros a b. unfold DatabaseManager.newer. lia. Qed.

Global Instance newer_trans : Transitive DatabaseManager.newer.
Proof. intros a b c. unfold DatabaseManager.newer. lia. Qed.

Lemma by_recency_sorted (rs : list ReportRecord) :
  StronglySorted DatabaseManager.newer_summary
    (DatabaseManager.summarize <$> DatabaseManager.by_recency rs).
Proof.
  apply (StronglySorted_fmap _ DatabaseManager.newer).
  - intros x y H. exact H.
  - apply StronglySorted_merge_sort; apply _.
Qed.

Lemma by_recency_perm (rs : list ReportRecord) :
  DatabaseManager.by_recency rs ≡ₚ rs.
Proof. apply merge_sort_Permutation. Qed.

Lemma monotone_history_entries (i : HistoryInput) (found : list ReportSummary) :
  monotone
    (for_each found (show_report_entry (hi_view i));;
     now ← get_clock;
     stats ← db_query (DatabaseManager.get_report_summary_stats now) GetReportSummaryStats;
     show (Sidebar (Markdown "### Report Statistics"));;
     show (Sidebar (Metric "Total Reports" (total_reports stats)));;
     show (Sidebar (Metric "Recent Reports (24h)" (recent_reports stats)))).
Proof. pose proof monotone_show_report_entry. mono. Qed.

(** C8: for every limit [n], [recent(n)] returns at most [n] Report
    Record summaries, in non-increasing order of creation time with
    ties broken by identifier descending; they are the first [n] of all
    stored records in that order. With an empty search query the Report
    History page asks the store for the 10 most recent records. *)
Theorem recent_reports_ordered :
  (∀ (n : nat) (s : Store) (l : list ReportSummary),
     DatabaseManager.get_recent_reports n s = Ok l →
     (length l ≤ n)%nat ∧
     StronglySorted DatabaseManager.newer_summary l ∧
     length l = (n `min` length (reports s))%nat ∧
     ∃ older,
       l ++ older ≡ₚ DatabaseManager.summarize <$> reports s ∧
       StronglySorted DatabaseManager.newer_summary (l ++ older)) ∧
  (∀ (i : HistoryInput) (w : World),
     hi_query i = "" →
     ∃ rest,
       db_log (show_report_history i w).2 = db_log w ++ GetRecentReports 10 :: rest).
Proof.
  split.
  - intros n s l. unfold DatabaseManager.get_recent_reports.
    destruct (available s); [|discriminate]. intros [= <-].
    pose proof (by_recency_sorted (reports s)) as Hsorted.
    rewrite <- (take_drop n (DatabaseManager.by_recency (reports s))) in Hsorted.
    rewrite fmap_app in Hsorted.
    rewrite length_fmap, length_take.
    rewrite (Permutation_length (by_recency_perm (reports s))).
    split; [lia|]. split; [exact (StronglySorted_app_1_l _ _ _ Hsorted)|].
    split; [reflexivity|].
    exists (DatabaseManager.summarize <$> drop n (DatabaseManager.by_recency (reports s))).
    split; [|exact Hsorted].
    rewrite <- fmap_app, take_drop. apply fmap_Permutation, by_recency_perm.
  - intros i w Hq. unfold show_report_history. rewrite Hq.
    rewrite bind_run, show_run, bind_run.
    rewrite bool_decide_eq_true_2 by reflexivity.
    unfold db_query at 1. cbn [add_widgets db db_log].
    destruct (DatabaseManager.get_recent_reports 10 (db w)) as [found|e].
    + match goal with |- context [(?m ≫= ?k) ?w0] =>
        pose proof (monotone_history_entries i found w0) as (_ & (rest & Hrest) & _)
      end.
      exists rest. cbn [db_log] in Hrest. rewrite Hrest, <- app_assoc. reflexivity.
    + exists []. reflexivity.
Qed.

Lemma recent_reports_ordered_witness :
  (∃ l,
     DatabaseManager.get_recent_reports 2 sample_store = Ok l ∧
     sum_id <$> l = [3; 2] ∧
     (length l ≤ 2)%nat ∧
     StronglySorted DatabaseManager.newer_summary l) ∧
  (∃ rest,
     db_log (show_report_history browse_history initial_world).2
     = GetRecentReports 10 :: rest).
Proof.
  destruct recent_reports_ordered as [Hrecent Hpage]. split.
  - eexists. split; [vm_compute; reflexivity|]. split; [reflexivity|].
    match goal with |- (length ?l ≤ _)%nat ∧ _ =>
      destruct (Hrecent 2%nat sample_store l) as (Hlen & Hsorted & _);
        [vm_compute; reflexivity|]
    end.
    split; [exact Hlen|exact Hsorted].
  - exact (Hpage browse_history initial_world eq_refl).
Defined.

(** ** The Report Generation page *)








(** The scenario of the written contract: a detailed result with an
    accuracy of 0.87 is assembled into one new document under a
    non-empty path, which the page offers for download. *)
Example detailed_report_generated :
  let r := show_report_generation (sample_env detailed_result) generate_detailed
             (analysed_world detailed_result) in
  r.1 = Ok tt ∧
  agent_log r.2
  = [GenerateReport "uploads/patients.csv" detailed_result "detailed"
       (Ok "reports/patients.csv_detailed_1700000000.pdf")] ∧
  dom (fs r.2)
  = ({["uploads/patients.csv"; "reports/patients.csv_detailed_1700000000.pdf"]}
       : gset string) ∧
  screen r.2 !! 9%nat = Some (SuccessMsg "Report generated successfully! 🎉").
Proof.
  cbv zeta. split; [vm_compute; reflexivity|]. split; [vm_compute; reflexivity|].
  split; vm_compute; reflexivity.
Qed.

(** Without the accuracy the same request is refused and the output
    area stays as it was. *)
Example detailed_report_without_accuracy :
  let r := show_report_generation (sample_env detailed_without_accuracy) generate_detailed
             (analysed_world detailed_without_accuracy) in
  r.1 = Ok tt ∧
  agent_log r.2
  = [GenerateReport "uploads/patients.csv" detailed_without_accuracy "detailed"
       (Raise (MkExn AssemblyError "accuracy is missing"))] ∧
  fs r.2 = fs (analysed_world detailed_without_accuracy).
Proof.
  cbv zeta. split; [vm_compute; reflexivity|]. split; vm_compute; reflexivity.
Qed.

(** The refusal goes by the result, not by the format: a result of the
    basic mode, which has neither [predictions] nor [accuracy], is
    assembled in the detailed format. *)
Example basic_report_in_detailed_format :
  let r := show_report_generation (sample_env basic_result) generate_detailed
             (analysed_world basic_result) in
  refused basic_result = None ∧
  r.1 = Ok tt ∧
  agent_log r.2
  = [GenerateReport "uploads/patients.csv" basic_result "detailed"
       (Ok "reports/patients.csv_detailed_1700000000.pdf")].
Proof.
  cbv zeta. split; [reflexivity|]. split; vm_compute; reflexivity.
Qed.

(** ** Actions that only render *)

Lemma add_widgets_nil (w : World) : add_widgets w [] = w.
Proof. unfold add_widgets. rewrite app_nil_r. destruct w; reflexivity. Qed.

Lemma renders_only_ret {A} (a : A) : renders_only (mret a : M A).
Proof. intros w. exists []. symmetry. apply add_widgets_nil. Qed.

Lemma renders_only_raise {A} (e : Exn) : renders_only (raise e : M A).
Proof. intros w. exists []. symmetry. apply add_widgets_nil. Qed.

Lemma renders_only_lift {A} (r : result A) : renders_only (lift r).
Proof. intros w. exists []. symmetry. apply add_widgets_nil. Qed.

Lemma renders_only_get_session : renders_only get_session.
Proof. intros w. exists []. symmetry. apply add_widgets_nil. Qed.

Lemma renders_only_get_clock : renders_only get_clock.
Proof. intros w. exists []. symmetry. apply add_widgets_nil. Qed.

Lemma renders_only_show (x : Widget) : renders_only (show x).
Proof. intros w. exists [x]. reflexivity. Qed.

Lemma renders_only_bind {A B} (m : M A) (k : A → M B) :
  renders_only m → (∀ a, renders_only (k a)) → renders_only (m ≫= k).
Proof.
  intros Hm Hk w. rewrite bind_run. destruct (Hm w) as [l Hl].
  destruct (m w) as [[a|e] w']; cbn [snd] in *; subst w'.
  - destruct (Hk a (add_widgets w l)) as [l' Hl'].
    exists (l ++ l'). rewrite Hl'. apply add_widgets_app.
  - exists l. reflexivity.
Qed.

Lemma renders_only_try_except {A} (body : M A) (handler : Exn → M A) :
  renders_only body → (∀ e, renders_only (handler e)) →
  renders_only (try_except body handler).
Proof.
  intros Hb Hh w. unfold try_except. destruct (Hb w) as [l Hl].
  destruct (body w) as [[a|e] w']; cbn [snd] in *; subst w'.
  - exists l. reflexivity.
  - destruct (Hh e (add_widgets w l)) as [l' Hl'].
    exists (l ++ l'). rewrite Hl'. apply add_widgets_app.
Qed.

Lemma renders_only_for_each {A} (l : list A) (body : A → M unit) :
  (∀ x, renders_only (body x)) → renders_only (for_each l body).
Proof.
  intros Hb. induction l as [|x l IH]; cbn [for_each].
  - apply renders_only_ret.
  - apply renders_only_bind; [apply Hb|intros _; exact IH].
Qed.

Create HintDb render discriminated.

#[export] Hint Resolve renders_only_ret renders_only_raise renders_only_lift
  renders_only_get_session renders_only_get_clock renders_only_show : render.

(** Splits a rendering action along its binds, loops and branches. *)
Ltac render :=
  repeat first
    [ progress intros
    | apply renders_only_bind
    | apply renders_only_try_except
    | apply renders_only_for_each
    | solve [auto with render]
    | match goal with
      | |- renders_only (match ?x with _ => _ end) => destruct x
      | |- renders_only (if ?b then _ else _) => destruct b
      | |- renders_only (let _ := _ in _) => cbv zeta
      end ].

Lemma renders_only_draw (env : Collaborators) (c : Chart) : renders_only (draw env c).
Proof. unfold draw. render. Qed.

Lemma renders_only_show_analysis_tabs (env : Collaborators) (d : DataFrame)
    (r : AnalysisResult) (feature : option string) :
  renders_only (show_analysis_tabs env d r feature).
Proof.
  unfold show_analysis_tabs, show_bullets. pose proof (renders_only_draw env). render.
Qed.

Lemma renders_only_show_dashboard_after (env : Collaborators) (d : DataFrame)
    (i : ReportInput) :
  renders_only
    (show (Markdown "## Data Insights Dashboard");;
     show (Markdown "### Distribution Analysis");;
     draw env (Histplot d (selectbox (numeric_cols d) (rp_feature i))
                 ("Distribution of "
                  +:+ default "None" (selectbox (numeric_cols d) (rp_feature i))));;
     show (Markdown "### Correlation Analysis");;
     draw env (CorrHeatmap (select_numeric d) "Feature Correlation Analysis");;
     show (Markdown "### Statistical Summary");;
     show (DescribeView d)).
Proof. pose proof (renders_only_draw env). render. Qed.

(** ** The Upload & Analyze page, in full *)

(** How the page leaves the world for an accepted upload. *)
Lemma upload_page_shape (env : Collaborators) (i : UploadInput) (f : UploadedFile)
    (w : World) :
  file_uploader ["csv"] (up_file i) = Some f →
  ∃ l,
    show_upload_and_analyze env i w =
    (Ok tt,
     {| session :=
          {| current_file := Some (path_join "uploads" (uf_name f));
             analysis_results :=
               match read_csv env (uf_buffer f) with
               | Ok d =>
                   if up_run i then
                     match analyze env d (chosen_analysis_type i) with
                     | Ok r => Some r
                     | Raise _ => analysis_results (session w)
                     end
                   else analysis_results (session w)
               | Raise _ => analysis_results (session w)
               end;
             df := match read_csv env (uf_buffer f) with
                   | Ok d => Some d
                   | Raise _ => df (session w)
                   end;
             selected_report := selected_report (session w) |};
        fs := <[path_join "uploads" (uf_name f) := uf_buffer f]> (fs w);
        db := db w; screen := screen w ++ l; db_log := db_log w;
        agent_log := agent_log w; clock := clock w |}).
Proof.
  intros Hup. unfold show_upload_and_analyze. rewrite Hup, bind_run, show_run.
  unfold try_except, upload_body.
  destruct (read_csv env (uf_buffer f)) as [d|e] eqn:Hparse.
  - erewrite bind_ok by (apply load_upload_ok; exact Hparse).
    erewrite bind_ok by apply show_overview_run.
    unfold analysis_section. rewrite bind_run, show_run.
    change (default "" (selectbox analysis_types (up_analysis_type i)))
      with (chosen_analysis_type i).
    destruct (up_run i).
    + rewrite (bind_run (lift _)). unfold lift at 1.
      destruct (analyze env d (chosen_analysis_type i)) as [r|e].
      * rewrite bind_run.
        match goal with |- context [set_analysis_results r ?w0] =>
          change (set_analysis_results r w0) with
            (Ok tt,
             {| session := {| current_file := current_file (session w0);
                              analysis_results := Some r; df := df (session w0);
                              selected_report := selected_report (session w0) |};
                fs := fs w0; db := db w0; screen := screen w0; db_log := db_log w0;
                agent_log := agent_log w0; clock := clock w0 |})
        end.
        cbv beta iota zeta.
        match goal with |- context [show_analysis_tabs env d r ?ft ?w0] =>
          destruct (renders_only_show_analysis_tabs env d r ft w0) as [l Hl];
          destruct (show_analysis_tabs env d r ft w0) as [[[]|e] w1]
        end; cbn [snd] in Hl; subst w1; run; eexists; rewrite <- !app_assoc;
          reflexivity.
      * run. eexists. rewrite <- !app_assoc. reflexivity.
    + run. eexists. rewrite <- !app_assoc. reflexivity.
  - erewrite bind_raise by (apply load_upload_raise; exact Hparse).
    run. eexists. rewrite <- !app_assoc. reflexivity.
Qed.

(** X1: the Upload & Analyze page never lets an exception through:
    whatever the parser, the analysis agent or the chart renderer do,
    the page ends normally. *)
Theorem upload_page_never_raises (env : Collaborators) (i : UploadInput) (w : World) :
  (show_upload_and_analyze env i w).1 = Ok tt.
Proof.
  destruct (file_uploader ["csv"] (up_file i)) as [f|] eqn:Hup.
  - destruct (upload_page_shape env i f w Hup) as [l ->]. reflexivity.
  - unfold show_upload_and_analyze. rewrite Hup. reflexivity.
Qed.

(** X2: uploading without pressing "Run Analysis" leaves the analysis
    results of the session as they were, so results obtained for an
    earlier file stay in the session next to the new table. *)
Theorem upload_without_run_keeps_results (env : Collaborators) (i : UploadInput)
    (w : World) :
  up_run i = false →
  analysis_results (session (show_upload_and_analyze env i w).2)
  = analysis_results (session w).
Proof.
  intros Hrun. destruct (file_uploader ["csv"] (up_file i)) as [f|] eqn:Hup.
  - destruct (upload_page_shape env i f w Hup) as [l ->].
    cbn [snd session analysis_results]. rewrite Hrun.
    destruct (read_csv env (uf_buffer f)); reflexivity.
  - unfold show_upload_and_analyze. rewrite Hup. reflexivity.
Qed.

Lemma upload_without_run_keeps_results_witness :
  let w' := (show_upload_and_analyze (sample_env basic_result)
               (upload_only csv_upload_again) (analysed_world failed_result)).2 in
  analysis_results (session w') = Some failed_result.
Proof.
  exact (upload_without_run_keeps_results (sample_env basic_result)
           (upload_only csv_upload_again) (analysed_world failed_result) eq_refl).
Defined.

(** X3: when "Run Analysis" is pressed on a table that was read, what
    the agent returns is stored in the session before anything is
    rendered: it stays there when the result carries an [error] and
    when a chart fails afterwards, in which case the page reports the
    failure and still ends normally. *)
Theorem analysis_results_stored_first (env : Collaborators) (i : UploadInput)
    (f : UploadedFile) (d : DataFrame) (r : AnalysisResult) (w : World) :
  file_uploader ["csv"] (up_file i) = Some f →
  read_csv env (uf_buffer f) = Ok d →
  up_run i = true →
  analyze env d (chosen_analysis_type i) = Ok r →
  let w' := (show_upload_and_analyze env i w).2 in
  analysis_results (session w') = Some r ∧
  df (session w') = Some d ∧
  current_file (session w') = Some (path_join "uploads" (uf_name f)).
Proof.
  intros Hup Hparse Hrun Han. cbv zeta.
  destruct (upload_page_shape env i f w Hup) as [l ->].
  cbn [snd session analysis_results df current_file].
  rewrite Hparse, Hrun, Han. repeat split.
Qed.

Lemma analysis_results_stored_first_witness :
  let r := show_upload_and_analyze (broken_charts_env failed_result)
             (run_analysis csv_upload) initial_world in
  r.1 = Ok tt ∧
  analysis_results (session r.2) = Some failed_result ∧
  last (screen r.2) = Some (ErrorMsg "Error processing file: could not draw the figure").
Proof.
  cbv zeta. split; [vm_compute; reflexivity|]. split.
  - exact (proj1 (analysis_results_stored_first (broken_charts_env failed_result)
                    (run_analysis csv_upload) csv_upload sample_table failed_result
                    initial_world eq_refl eq_refl eq_refl eq_refl)).
  - vm_compute. reflexivity.
Defined.






(** ** The Report Generation page, in full *)

Lemma path_join_nonempty (name : string) : path_join "uploads" name ≠ "".
Proof.
  unfold path_join. destruct name as [|c name]; [discriminate|].
  destruct (is_prefix "/" (String c name)); discriminate.
Qed.

Lemma show_report_generation_ready (env : Collaborators) (i : ReportInput)
    (file : string) (a : AnalysisResult) (w : World) :
  current_file (session w) = Some file →
  analysis_results (session w) = Some a →
  show_report_generation env i w
  = (report_dashboard env file i ≫= λ _, generate_section env file a i)
      (add_widgets w [Title "Report Generation 📄"]).
Proof.
  intros Hfile Ha. unfold show_report_generation.
  rewrite bind_run, show_run, bind_run. unfold get_session at 1.
  cbn [add_widgets session]. rewrite Hfile, Ha. reflexivity.
Qed.

Lemma show_dashboard_parse_failure (env : Collaborators) (file : string)
    (i : ReportInput) (data : list Byte.byte) (e : Exn) (w : World) :
  fs w !! file = Some data →
  read_csv env data = Raise e →
  show_dashboard env file i w = (Raise e, w).
Proof.
  intros Hfile Hparse. unfold show_dashboard, read_csv_path.
  rewrite !bind_run. unfold read_file at 1. rewrite Hfile.
  unfold lift at 1. rewrite Hparse. reflexivity.
Qed.

Lemma generate_section_returns (env : Collaborators) (file : string)
    (a : AnalysisResult) (i : ReportInput) (w : World) :
  (generate_section env file a i w).1 = Ok tt.
Proof.
  unfold generate_section. rewrite bind_run, show_run.
  destruct (rp_generate i); [|reflexivity].
  unfold try_except.
  destruct (generate_body env file a i _) as [[[]|e] w']; reflexivity.
Qed.

Lemma show_report_generation_unready (env : Collaborators) (i : ReportInput)
    (w : World) :
  (current_file (session w) = None →
   show_report_generation env i w
   = (Ok tt,
      add_widgets w
        [ Title "Report Generation 📄";
          WarningMsg "Please upload a file first in the Upload & Analyze section" ])) ∧
  (∀ file,
     current_file (session w) = Some file →
     analysis_results (session w) = None →
     show_report_generation env i w
     = (Ok tt,
        add_widgets w
          [ Title "Report Generation 📄";
            WarningMsg "Please run analysis first in the Upload & Analyze section" ])).
Proof.
  split.
  - intros Hfile. unfold show_report_generation.
    rewrite bind_run, show_run, bind_run. unfold get_session at 1.
    cbn [add_widgets session]. rewrite Hfile, show_run, add_widgets_app. reflexivity.
  - intros file Hfile Ha. unfold show_report_generation.
    rewrite bind_run, show_run, bind_run. unfold get_session at 1.
    cbn [add_widgets session]. rewrite Hfile, Ha, show_run, add_widgets_app.
    reflexivity.
Qed.

(** X6: without a current file, and with a current file but without
    analysis results, the Report Generation page shows a warning and
    does nothing else: the session, the files and the store are as
    before and the assembler is not called, even when "Generate
    Report" is pressed. *)
Theorem report_page_guards (env : Collaborators) (i : ReportInput) (w : World) :
  current_file (session w) = None ∨ analysis_results (session w) = None →
  ∃ warning,
    show_report_generation env i w
    = (Ok tt, add_widgets w [Title "Report Generation 📄"; WarningMsg warning]) ∧
    (current_file (session w) = None →
     warning = "Please upload a file first in the Upload & Analyze section") ∧
    (is_Some (current_file (session w)) →
     warning = "Please run analysis first in the Upload & Analyze section").
Proof.
  intros Hmissing.
  destruct (show_report_generation_unready env i w) as [Hnone Hsome].
  destruct (current_file (session w)) as [file|] eqn:Hfile.
  - destruct Hmissing as [Hm|Hm]; [discriminate Hm|].
    eexists. split; [exact (Hsome file eq_refl Hm)|].
    split; [discriminate|reflexivity].
  - eexists. split; [exact (Hnone eq_refl)|].
    split; [reflexivity|]. intros [? ?]. discriminate.
Qed.

Lemma report_page_guards_witness :
  let r := show_report_generation (sample_env basic_result) generate_standard
             initial_world in
  r.1 = Ok tt ∧ agent_log r.2 = [] ∧ fs r.2 = ∅ ∧
  last (screen r.2)
  = Some (WarningMsg "Please upload a file first in the Upload & Analyze section").
Proof.
  cbv zeta.
  destruct (report_page_guards (sample_env basic_result) generate_standard initial_world
              (or_introl eq_refl)) as (warning & -> & Hwarning & _).
  rewrite (Hwarning eq_refl). repeat split.
Defined.

(** X7: the only exceptions that leave the Report Generation page are
    those of the dashboard (reading the current file back and drawing
    its charts, which happen outside the [try] block); they leave it as
    they were raised. Everything that goes wrong after "Generate
    Report" is pressed (lines 298-334: the assembler, opening the
    document it names, the preview) is caught and shown: the page ends
    normally, and the last two things on the screen are the error
    message with the text of the exception and "Please try again.". *)
Theorem report_page_raises_only_from_dashboard (env : Collaborators) (i : ReportInput)
    (w : World) :
  ((show_report_generation env i w).1 = Ok tt ∨
   ∃ file e w',
     current_file (session w) = Some file ∧
     report_dashboard env file i (add_widgets w [Title "Report Generation 📄"])
     = (Raise e, w') ∧
     show_report_generation env i w = (Raise e, w')) ∧
  ∀ file a w1 e w2,
    current_file (session w) = Some file →
    analysis_results (session w) = Some a →
    report_dashboard env file i (add_widgets w [Title "Report Generation 📄"])
    = (Ok tt, w1) →
    rp_generate i = true →
    generate_body env file a i (add_widgets w1 [Markdown "## Generate Report"])
    = (Raise e, w2) →
    show_report_generation env i w
    = (Ok tt,
       add_widgets w2 [ ErrorMsg ("Error generating report: " +:+ exn_msg e);
                        ErrorMsg "Please try again." ]).
Proof.
  destruct (show_report_generation_unready env i w) as [Hnone Hsome]. split.
  - destruct (current_file (session w)) as [file|] eqn:Hfile.
    + destruct (analysis_results (session w)) as [a|] eqn:Ha.
      * pose proof (show_report_generation_ready env i file a w Hfile Ha) as Hrun.
        rewrite bind_run in Hrun.
        destruct (report_dashboard env file i _) as [[[]|e] w'] eqn:Hdash.
        -- left. rewrite Hrun. apply generate_section_returns.
        -- right. exists file, e, w'.
           split; [reflexivity|]. split; [exact Hdash|exact Hrun].
      * left. rewrite (Hsome file eq_refl eq_refl). reflexivity.
    + left. rewrite (Hnone eq_refl). reflexivity.
  - intros file a w1 e w2 Hfile Ha Hdash Hpress Hbody.
    rewrite (show_report_generation_ready env i file a w Hfile Ha).
    erewrite bind_ok by exact Hdash.
    unfold generate_section. rewrite bind_run, show_run, Hpress.
    unfold try_except. rewrite Hbody.
    rewrite bind_run, show_run, show_run, add_widgets_app. reflexivity.
Qed.

Lemma report_page_raises_only_from_dashboard_witness :
  let r := show_report_generation (sample_env failed_result) generate_standard
             (analysed_world failed_result) in
  r.1 = Ok tt ∧
  screen r.2
  = screen (before_assembly failed_result generate_standard) ++
      [ Markdown "## Generate Report";
        ErrorMsg "Error generating report: analysis failed: model unavailable";
        ErrorMsg "Please try again." ].
Proof.
  cbv zeta.
  assert (report_dashboard (sample_env failed_result) "uploads/patients.csv"
            generate_standard
            (add_widgets (analysed_world failed_result) [Title "Report Generation 📄"])
          = (Ok tt, before_assembly failed_result generate_standard)) as Hdash
    by (vm_compute; reflexivity).
  assert (generate_body (sample_env failed_result) "uploads/patients.csv" failed_result
            generate_standard
            (add_widgets (before_assembly failed_result generate_standard)
               [Markdown "## Generate Report"])
          = (Raise assembly_refused,
             (generate_body (sample_env failed_result) "uploads/patients.csv"
                failed_result generate_standard
                (add_widgets (before_assembly failed_result generate_standard)
                   [Markdown "## Generate Report"])).2)) as Hbody
    by (vm_compute; reflexivity).
  rewrite (proj2 (report_page_raises_only_from_dashboard (sample_env failed_result)
                    generate_standard (analysed_world failed_result))
             "uploads/patients.csv" failed_result _ _ _ eq_refl eq_refl Hdash eq_refl
             Hbody).
  split; [reflexivity|]. vm_compute. reflexivity.
Defined.

(** X8: an upload that does not parse still becomes the current file
    (line 111 comes before line 114). If the session holds analysis
    results, the Report Generation page then reads that file back
    outside any [try] block (line 240), so the parser's exception leaves
    the page with nothing but the title rendered. *)
Theorem report_page_fails_after_unparsed_upload (env : Collaborators)
    (i : UploadInput) (j : ReportInput) (f : UploadedFile) (e : Exn)
    (a : AnalysisResult) (w : World) :
  file_uploader ["csv"] (up_file i) = Some f →
  read_csv env (uf_buffer f) = Raise e →
  analysis_results (session w) = Some a →
  let w1 := (show_upload_and_analyze env i w).2 in
  show_report_generation env j w1
  = (Raise e, add_widgets w1 [Title "Report Generation 📄"]).
Proof.
  intros Hup Hparse Ha. cbv zeta.
  destruct (upload_page_shape env i f w Hup) as [l ->]. cbn [snd].
  rewrite Hparse.
  erewrite show_report_generation_ready by first [reflexivity | exact Ha].
  unfold report_dashboard.
  rewrite bool_decide_eq_false_2 by apply path_join_nonempty.
  erewrite bind_raise; [reflexivity|].
  eapply show_dashboard_parse_failure; [|exact Hparse].
  cbn [add_widgets fs]. apply lookup_insert_eq.
Qed.

Lemma report_page_fails_after_unparsed_upload_witness :
  current_file (session (upload_broken_after basic_result)) = Some "uploads/broken.csv" ∧
  (show_report_generation (sample_env basic_result) generate_standard
     (upload_broken_after basic_result)).1 = Raise parse_error.
Proof.
  split; [vm_compute; reflexivity|].
  unfold upload_broken_after.
  rewrite (report_page_fails_after_unparsed_upload (sample_env basic_result)
             (upload_only broken_upload) generate_standard broken_upload parse_error
             basic_result (analysed_world basic_result) eq_refl eq_refl eq_refl).
  reflexivity.
Defined.

Lemma generate_body_success (env : Collaborators) (file path : string)
    (a : AnalysisResult) (i : ReportInput) (d : DataFrame) (data : list Byte.byte)
    (w w2 : World) :
  generate_report env file a (lower (rp_format i)) w = (Ok path, w2) →
  fs w2 !! path = Some data →
  df (session w2) = Some d →
  generate_body env file a i w =
  (Ok tt,
   {| session := session w2; fs := fs w2; db := db w2;
      screen := screen w2 ++
        [ SuccessMsg "Report generated successfully! 🎉";
          DownloadButton "📥 Download Report" (basename path) data;
          Expander "Report Preview";
          InfoMsg "This is a preview of the report content. Download the PDF for the full formatted report.";
          ReportPreview (clock w2) (basename file) (rp_format i)
            (join_comma (rp_options i)) (df_len d) (columns_len d) ];
      db_log := db_log w2;
      agent_log := agent_log w2 ++
                     [GenerateReport file a (lower (rp_format i)) (Ok path)];
      clock := clock w2 |}).
Proof.
  intros Hgen Hfs Hdf. unfold generate_body.
  rewrite bind_run. unfold agent_generate_report at 1. rewrite Hgen.
  cbv beta iota zeta. rewrite bind_run, show_run.
  rewrite bind_run. unfold read_file at 1. cbn [add_widgets fs]. rewrite Hfs.
  run. rewrite Hdf. run. rewrite <- !app_assoc. reflexivity.
Qed.

(** X9: when the assembler returns a path, the page announces the
    report, offers the bytes found under that path for download under
    the path's base name, and previews the report with the base name of
    the current file, the chosen format and sections, and the record
    and feature counts of the table kept in the session. *)
Theorem report_download_offered (env : Collaborators) (i : ReportInput)
    (file path : string) (a : AnalysisResult) (d : DataFrame)
    (data : list Byte.byte) (w w1 w2 : World) :
  current_file (session w) = Some file →
  analysis_results (session w) = Some a →
  rp_generate i = true →
  report_dashboard env file i (add_widgets w [Title "Report Generation 📄"])
  = (Ok tt, w1) →
  generate_report env file a (lower (rp_format i))
    (add_widgets w1 [Markdown "## Generate Report"]) = (Ok path, w2) →
  fs w2 !! path = Some data →
  df (session w2) = Some d →
  let r := show_report_generation env i w in
  r.1 = Ok tt ∧
  screen r.2 =
    screen w2 ++
      [ SuccessMsg "Report generated successfully! 🎉";
        DownloadButton "📥 Download Report" (basename path) data;
        Expander "Report Preview";
        InfoMsg "This is a preview of the report content. Download the PDF for the full formatted report.";
        ReportPreview (clock w2) (basename file) (rp_format i)
          (join_comma (rp_options i)) (df_len d) (columns_len d) ] ∧
  agent_log r.2
  = agent_log w2 ++ [GenerateReport file a (lower (rp_format i)) (Ok path)] ∧
  fs r.2 = fs w2 ∧ session r.2 = session w2 ∧ db r.2 = db w2.
Proof.
  intros Hfile Ha Hpress Hdash Hgen Hfs Hdf. cbv zeta.
  rewrite (show_report_generation_ready env i file a w Hfile Ha).
  erewrite bind_ok by exact Hdash.
  unfold generate_section. rewrite bind_run, show_run, Hpress.
  unfold try_except.
  rewrite (generate_body_success env file path a i d data _ w2 Hgen Hfs Hdf).
  repeat split.
Qed.

Lemma report_download_offered_witness :
  let r := show_report_generation (sample_env detailed_result) generate_detailed
             (analysed_world detailed_result) in
  r.1 = Ok tt ∧
  screen r.2 !! 10%nat
  = Some (DownloadButton "📥 Download Report" "patients.csv_detailed_1700000000.pdf"
            sample_pdf) ∧
  last (screen r.2)
  = Some (ReportPreview 1700000000 "patients.csv" "Detailed"
            "Executive Summary, Data Overview, Key Insights, Visualizations" 100 5).
Proof.
  cbv zeta.
  destruct (report_download_offered (sample_env detailed_result) generate_detailed
              "uploads/patients.csv" "reports/patients.csv_detailed_1700000000.pdf"
              detailed_result
              sample_table sample_pdf (analysed_world detailed_result)
              (before_assembly detailed_result generate_detailed)
              (after_assembly detailed_result generate_detailed)
              eq_refl eq_refl eq_refl
              ltac:(vm_compute; reflexivity) ltac:(vm_compute; reflexivity)
              ltac:(vm_compute; reflexivity) ltac:(vm_compute; reflexivity))
    as (Hr & Hscreen & _).
  split; [exact Hr|]. rewrite Hscreen.
  split; vm_compute; reflexivity.
Defined.

(** ** The Quick Summary page, in full *)

(** X10: the Quick Summary page reads the upload from memory: it does
    not write it to the upload area and does not touch the session, so
    neither the current file nor the table nor the analysis results of
    the session change, and the assembler is never called. *)
Theorem quick_summary_keeps_session_and_files (env : Collaborators)
    (chosen : option UploadedFile) (w : World) :
  let w' := (show_quick_summary env chosen w).2 in
  session w' = session w ∧ fs w' = fs w ∧ agent_log w' = agent_log w.
Proof.
  cbv zeta. rewrite show_quick_summary_run.
  destruct (file_uploader ["csv"; "xlsx"] chosen) as [f|]; [|repeat split].
  destruct (read_csv env (uf_buffer f)) as [d|e]; [|repeat split].
  destruct (analyze env d "basic") as [a|e]; [|repeat split].
  destruct (error a) as [msg|] eqn:Herr.
  - rewrite (quick_summary_save_error d f a msg) by exact Herr. repeat split.
  - destruct (available (db (add_widgets w (quick_header d)))) eqn:Hav.
    + rewrite quick_summary_save_ok by assumption. repeat split.
    + rewrite quick_summary_save_unavailable by assumption. repeat split.
Qed.

(** X11: an exception of the analysis agent is not caught on the Quick
    Summary page: it leaves the page after the dataset overview was
    rendered, and nothing is handed to the store. *)
Theorem quick_summary_analysis_failure_escapes (env : Collaborators)
    (chosen : option UploadedFile) (f : UploadedFile) (d : DataFrame) (e : Exn)
    (w : World) :
  file_uploader ["csv"; "xlsx"] chosen = Some f →
  read_csv env (uf_buffer f) = Ok d →
  analyze env d "basic" = Raise e →
  show_quick_summary env chosen w = (Raise e, add_widgets w (quick_header d)).
Proof.
  intros Hup Hparse Han. rewrite show_quick_summary_run, Hup, Hparse, Han. reflexivity.
Qed.

Lemma quick_summary_analysis_failure_escapes_witness :
  let r := show_quick_summary broken_agent_env (Some csv_upload) initial_world in
  r.1 = Raise (MkExn AnalysisFailure "agent unreachable") ∧
  db r.2 = empty_store ∧ db_log r.2 = [] ∧
  last (screen r.2) = Some (Markdown "### Quick Insights").
Proof.
  cbv zeta.
  rewrite (quick_summary_analysis_failure_escapes broken_agent_env (Some csv_upload)
             csv_upload sample_table (MkExn AnalysisFailure "agent unreachable")
             initial_world eq_refl eq_refl eq_refl).
  repeat split.
Defined.

(** ** Bounds on the statistics *)

Lemma missing_in_row_le (r : list Cell) : (missing_in_row r ≤ length r)%nat.
Proof. unfold missing_in_row. apply length_filter. Qed.

Lemma missing_by_columns_le (cs : list Column) (n : nat) :
  Forall (λ c, length (col_cells c) = n) cs →
  (sum_list ((λ c, missing_in_row (col_cells c)) <$> cs) ≤ length cs * n)%nat.
Proof.
  induction 1 as [|c cs Hc Hcs IH]; [reflexivity|].
  rewrite fmap_cons. cbn [sum_list sum_list_with id length].
  change (sum_list_with id ?l) with (sum_list l).
  pose proof (missing_in_row_le (col_cells c)). lia.
Qed.

(** X12: for a table whose columns are as long as its index, the
    numbers on display are consistent: Missing Values lies between 0
    and Records times Features, and Numeric Cols lies between 0 and
    Features. *)
Theorem statistics_bounds (d : DataFrame) :
  df_wf d →
  0 ≤ missing_values d ≤ df_len d * columns_len d ∧
  0 ≤ columns_len (select_numeric d) ≤ columns_len d.
Proof.
  intros Hwf. split.
  - rewrite missing_values_by_columns.
    pose proof (missing_by_columns_le (df_columns d) (length (df_index d)) Hwf).
    unfold df_len, columns_len. nia.
  - unfold columns_len, select_numeric. cbn [df_columns].
    pose proof (length_filter (λ c, is_numeric (col_dtype c) = true) (df_columns d)).
    lia.
Qed.

Lemma statistics_bounds_witness :
  0 ≤ missing_values sample_table ≤ 500 ∧
  0 ≤ columns_len (select_numeric sample_table) ≤ 5.
Proof.
  exact (statistics_bounds sample_table sample_table_wf).
Defined.

(** ** Paths *)

Lemma basename_from_no_slash (s acc : string) :
  contains "/" s = false → basename_from s acc = acc.
Proof.
  revert acc. induction s as [|c s IH]; intros acc Hs; [reflexivity|].
  cbn [contains is_prefix] in Hs. cbn [basename_from].
  rewrite (Ascii.eqb_sym c "/"%char).
  destruct (Ascii.eqb "/"%char c); [discriminate Hs|].
  apply IH. exact Hs.
Qed.

Lemma basename_from_dir (dir name acc : string) :
  basename_from (dir +:+ "/" +:+ name) acc = basename_from name name.
Proof.
  revert acc. induction dir as [|c dir IH]; intros acc; [reflexivity|].
  change (String c dir +:+ "/" +:+ name) with (String c (dir +:+ "/" +:+ name)).
  cbn [basename_from].
  destruct (Ascii.eqb c "/"%char); apply IH.
Qed.

(** X13: for an uploaded file whose name holds no slash, the upload is
    stored directly under [uploads/], and the base name of the stored
    path, which the report preview shows as the analysed file, is the
    name of the upload. *)
Theorem basename_of_upload_path (name : string) :
  contains "/" name = false →
  path_join "uploads" name = "uploads/" +:+ name ∧
  basename (path_join "uploads" name) = name.
Proof.
  intros Hname.
  assert (is_prefix "/" name = false) as Hrel.
  { destruct name as [|c name]; [reflexivity|].
    cbn [contains] in Hname. apply orb_false_iff in Hname as [H _]. exact H. }
  unfold path_join. rewrite Hrel. split; [reflexivity|].
  unfold basename. rewrite basename_from_dir. apply basename_from_no_slash, Hname.
Qed.

Lemma basename_of_upload_path_witness :
  path_join "uploads" (uf_name csv_upload) = "uploads/patients.csv" ∧
  basename (path_join "uploads" (uf_name csv_upload)) = "patients.csv".
Proof.
  exact (basename_of_upload_path (uf_name csv_upload) eq_refl).
Defined.

(** ** The Report History page, in full *)

Lemma show_report_entry_run (view : option Z) (report : ReportSummary) (w : World) :
  available (db w) = true →
  show_report_entry view report w =
  (Ok tt,
   {| session := select_report view report (session w); fs := fs w; db := db w;
      screen := screen w ++ entry_widgets (db w) report;
      db_log := db_log w ++ [GetReportDetails (sum_id report)];
      agent_log := agent_log w; clock := clock w |}).
Proof.
  intros Hav. unfold show_report_entry, entry_widgets, select_report.
  rewrite bind_run, show_run, bind_run, show_run, add_widgets_app, bind_run.
  unfold db_query at 1, DatabaseManager.get_report_details.
  cbn [add_widgets db]. rewrite Hav.
  destruct (DatabaseManager.find_report (sum_id report) (reports (db w))) as [r|].
  - rewrite bind_run, bind_run, show_run.
    rewrite (for_each_show (λ q, InfoMsg (summary_text q))).
    destruct (bool_decide (view = Some (sum_id report))); run;
      rewrite <- !app_assoc; reflexivity.
  - destruct (bool_decide (view = Some (sum_id report))); run;
      rewrite ?app_nil_r, <- ?app_assoc; destruct w; reflexivity.
Qed.

Lemma for_each_entries_run (view : option Z) (found : list ReportSummary) (w : World) :
  available (db w) = true →
  for_each found (show_report_entry view) w = (Ok tt, after_entries view found w).
Proof.
  revert w. induction found as [|report found IH]; intros w Hav.
  - unfold after_entries. cbn. rewrite !app_nil_r. destruct w; reflexivity.
  - cbn [for_each]. rewrite bind_run, show_report_entry_run by exact Hav.
    rewrite IH by exact Hav. unfold after_entries.
    cbn [session fs db screen db_log agent_log clock].
    rewrite !fmap_cons, <- !app_assoc. reflexivity.
Qed.

Lemma history_found_available (i : HistoryInput) (s : Store) :
  available s = true → ∃ found, history_found i s = Ok found.
Proof.
  intros Hav. unfold history_found, DatabaseManager.get_recent_reports,
    DatabaseManager.search_reports. rewrite Hav.
  destruct (bool_decide (hi_query i = "")); eexists; reflexivity.
Qed.

(** The run of the history page on an available store. *)
Lemma show_report_history_run (i : HistoryInput) (found : list ReportSummary)
    (w : World) :
  available (db w) = true →
  history_found i (db w) = Ok found →
  show_report_history i w =
  (Ok tt,
   {| session := foldl (λ s report, select_report (hi_view i) report s) (session w) found;
      fs := fs w; db := db w;
      screen :=
        screen w ++ Title "Report History 📚" ::
          concat (entry_widgets (db w) <$> found) ++
          [ Sidebar (Markdown "### Report Statistics");
            Sidebar (Metric "Total Reports" (Z.of_nat (length (reports (db w)))));
            Sidebar (Metric "Recent Reports (24h)"
                       (Z.of_nat (length (filter (λ r, clock w - 86400 ≤ rec_created_at r)
                                            (reports (db w)))))) ];
      db_log :=
        db_log w ++ history_call i ::
          ((λ report, GetReportDetails (sum_id report)) <$> found) ++
          [GetReportSummaryStats];
      agent_log := agent_log w; clock := clock w |}).
Proof.
  intros Hav Hfound. unfold show_report_history.
  rewrite bind_run, show_run, bind_run.
  assert ((if bool_decide (hi_query i = "")
           then db_query (DatabaseManager.get_recent_reports 10) (GetRecentReports 10)
           else db_query (DatabaseManager.search_reports (hi_query i))
                  (SearchReports (hi_query i)))
            (add_widgets w [Title "Report History 📚"])
          = (Ok found,
             {| session := session w; fs := fs w; db := db w;
                screen := screen w ++ [Title "Report History 📚"];
                db_log := db_log w ++ [history_call i];
                agent_log := agent_log w; clock := clock w |})) as ->.
  { unfold history_found, history_call in *.
    destruct (bool_decide (hi_query i = "")); unfold db_query;
      cbn [add_widgets db]; rewrite Hfound; reflexivity. }
  rewrite bind_run, for_each_entries_run by exact Hav.
  unfold after_entries. cbn [session fs db screen db_log agent_log clock].
  rewrite bind_run. unfold get_clock at 1. cbn [clock].
  rewrite bind_run. unfold db_query at 1, DatabaseManager.get_report_summary_stats.
  cbn [db]. rewrite Hav. run. cbn [total_reports recent_reports].
  rewrite <- !app_assoc. reflexivity.
Qed.

Lemma select_report_frame (view : option Z) (found : list ReportSummary) (s : Session) :
  let s' := foldl (λ s report, select_report view report s) s found in
  current_file s' = current_file s ∧
  analysis_results s' = analysis_results s ∧
  df s' = df s ∧
  selected_report s'
  = match view with
    | Some id => if bool_decide (id ∈ sum_id <$> found) then Some id
                 else selected_report s
    | None => selected_report s
    end.
Proof.
  cbv zeta. revert s. induction found as [|report found IH]; intros s.
  - cbn [foldl]. repeat split. destruct view as [id|]; [|reflexivity].
    rewrite bool_decide_eq_false_2; [reflexivity|]. rewrite fmap_nil. apply not_elem_of_nil.
  - cbn [foldl]. destruct (IH (select_report view report s)) as (H1 & H2 & H3 & H4).
    rewrite H1, H2, H3, H4. unfold select_report.
    case_bool_decide as Hview.
    + subst view. cbn [current_file analysis_results df selected_report].
      repeat split. rewrite fmap_cons.
      rewrite (bool_decide_eq_true_2 (sum_id report ∈ sum_id report :: _)) by left.
      case_bool_decide; reflexivity.
    + repeat split. destruct view as [id|]; [|reflexivity].
      rewrite fmap_cons.
      assert (id ≠ sum_id report) as Hne by congruence.
      destruct (decide (id ∈ sum_id <$> found)) as [Hin|Hnin].
      * rewrite !bool_decide_eq_true_2; [reflexivity|right; exact Hin|exact Hin].
      * rewrite !bool_decide_eq_false_2; [reflexivity| |exact Hnin].
        intros [?|?]%elem_of_cons; contradiction.
Qed.

(** X14: on an available store the Report History page makes its store
    calls in a fixed order: first the search for a non-empty query, or
    the ten most recent reports for an empty one; then one
    [get_report_details] call for every listed report, in the order of
    the list; then the statistics. It only reads: the store and the
    files are as before. *)
Theorem history_store_calls (i : HistoryInput) (w : World) :
  available (db w) = true →
  let r := show_report_history i w in
  ∃ found,
    history_found i (db w) = Ok found ∧
    r.1 = Ok tt ∧
    db_log r.2
    = db_log w ++
        (if bool_decide (hi_query i = "") then GetRecentReports 10
         else SearchReports (hi_query i)) ::
        ((λ report, GetReportDetails (sum_id report)) <$> found) ++
        [GetReportSummaryStats] ∧
    db r.2 = db w ∧ fs r.2 = fs w.
Proof.
  intros Hav. cbv zeta.
  destruct (history_found_available i (db w) Hav) as [found Hfound].
  exists found. rewrite (show_report_history_run i found w Hav Hfound).
  repeat split. exact Hfound.
Qed.

Lemma history_store_calls_witness :
  db_log (show_report_history (search_history "b.c")
            stored_world).2
  = [SearchReports "b.c"; GetReportDetails 2; GetReportSummaryStats].
Proof.
  destruct (history_store_calls (search_history "b.c")
              stored_world eq_refl)
    as (found & Hfound & _ & Hlog & _).
  rewrite Hlog. vm_compute in Hfound. injection Hfound as <-. reflexivity.
Defined.

(** X15: pressing "View Full Report" on a listed report stores its
    identifier as the selected report; a button that belongs to no
    listed report selects nothing. The other keys of the session are
    never touched by the history page. *)
Theorem history_view_selects_report (i : HistoryInput) (found : list ReportSummary)
    (w : World) :
  available (db w) = true →
  history_found i (db w) = Ok found →
  let s' := session (show_report_history i w).2 in
  selected_report s'
  = match hi_view i with
    | Some id => if bool_decide (id ∈ sum_id <$> found) then Some id
                 else selected_report (session w)
    | None => selected_report (session w)
    end ∧
  current_file s' = current_file (session w) ∧
  analysis_results s' = analysis_results (session w) ∧
  df s' = df (session w).
Proof.
  intros Hav Hfound. cbv zeta.
  rewrite (show_report_history_run i found w Hav Hfound). cbn [snd session].
  destruct (select_report_frame (hi_view i) found (session w)) as (H1 & H2 & H3 & H4).
  repeat split; assumption.
Qed.

Lemma history_view_selects_report_witness :
  selected_report (session (show_report_history (view_report 2) stored_world).2)
  = Some 2 ∧
  selected_report (session (show_report_history (view_report 7) stored_world).2)
  = None.
Proof.
  assert (∀ id, history_found (view_report id) (db stored_world)
                = Ok (DatabaseManager.summarize <$>
                        [sample_report 3 200 "c.csv"; sample_report 2 200 "b.csv";
                         sample_report 1 100 "a.csv"])) as Hfound
    by (intros id; vm_compute; reflexivity).
  split.
  - destruct (history_view_selects_report (view_report 2) _ stored_world
                eq_refl (Hfound 2)) as (H & _).
    rewrite H. reflexivity.
  - destruct (history_view_selects_report (view_report 7) _ stored_world
                eq_refl (Hfound 7)) as (H & _).
    rewrite H. reflexivity.
Defined.

(** X16: on an available store the Report History page renders, after
    its title, one block per listed report in the order of the list:
    an expander titled with the file name and the creation time, the
    metadata, and the texts of the quick summaries of that report; the
    sidebar statistics come last. *)
Theorem history_renders_entries (i : HistoryInput) (found : list ReportSummary)
    (w : World) :
  available (db w) = true →
  history_found i (db w) = Ok found →
  ∃ total recent,
    screen (show_report_history i w).2
    = screen w ++ Title "Report History 📚" ::
        concat (entry_widgets (db w) <$> found) ++
        [ Sidebar (Markdown "### Report Statistics");
          Sidebar (Metric "Total Reports" total);
          Sidebar (Metric "Recent Reports (24h)" recent) ] ∧
    DatabaseManager.get_report_summary_stats (clock w) (db w)
    = Ok {| total_reports := total; recent_reports := recent |}.
Proof.
  intros Hav Hfound.
  rewrite (show_report_history_run i found w Hav Hfound). cbn [snd screen].
  do 2 eexists. split; [reflexivity|].
  unfold DatabaseManager.get_report_summary_stats. rewrite Hav. reflexivity.
Qed.

Lemma history_renders_entries_witness :
  screen (show_report_history (search_history "b.c") stored_world).2
  = [ Title "Report History 📚";
      Expander "b.csv - 200"; Json ∅; Markdown "### Quick Summaries";
      InfoMsg "bmi is normal";
      Sidebar (Markdown "### Report Statistics");
      Sidebar (Metric "Total Reports" 3);
      Sidebar (Metric "Recent Reports (24h)" 3) ].
Proof.
  assert (history_found (search_history "b.c") (db stored_world)
          = Ok [DatabaseManager.summarize (sample_report 2 200 "b.csv")]) as Hfound
    by (vm_compute; reflexivity).
  destruct (history_renders_entries (search_history "b.c") _ stored_world
              eq_refl Hfound) as (total & recent & Hscreen & Hstats).
  rewrite Hscreen. vm_compute in Hstats. injection Hstats as <- <-.
  vm_compute. reflexivity.
Defined.

(** ** The current file exists *)

Lemma files_kept_refl (w : World) : files_kept w w.
Proof. split; [reflexivity|intros p H; exact H]. Qed.

Lemma files_kept_trans (w1 w2 w3 : World) :
  files_kept w1 w2 → files_kept w2 w3 → files_kept w1 w3.
Proof.
  intros [H1 F1] [H2 F2]. split; [congruence|]. intros p H. apply F2, F1, H.
Qed.

Lemma keeps_files_renders {A} (m : M A) : renders_only m → keeps_files m.
Proof.
  intros Hm w. destruct (Hm w) as [l ->]. split; [reflexivity|intros p H; exact H].
Qed.

Lemma keeps_files_bind {A B} (m : M A) (k : A → M B) :
  keeps_files m → (∀ a, keeps_files (k a)) → keeps_files (m ≫= k).
Proof.
  intros Hm Hk w. rewrite bind_run. specialize (Hm w).
  destruct (m w) as [[a|e] w']; cbn [snd] in *; [|exact Hm].
  eapply files_kept_trans; [exact Hm|apply Hk].
Qed.

Lemma keeps_files_try_except {A} (body : M A) (handler : Exn → M A) :
  keeps_files body → (∀ e, keeps_files (handler e)) →
  keeps_files (try_except body handler).
Proof.
  intros Hb Hh w. unfold try_except. specialize (Hb w).
  destruct (body w) as [[a|e] w']; cbn [snd] in *; [exact Hb|].
  eapply files_kept_trans; [exact Hb|apply Hh].
Qed.

Lemma keeps_files_for_each {A} (l : list A) (body : A → M unit) :
  (∀ x, keeps_files (body x)) → keeps_files (for_each l body).
Proof.
  intros Hb. induction l as [|x l IH]; cbn [for_each].
  - apply keeps_files_renders, renders_only_ret.
  - apply keeps_files_bind; [apply Hb|intros _; exact IH].
Qed.

Lemma keeps_files_read_file (path : string) : keeps_files (read_file path).
Proof. intros w. unfold read_file. destruct (fs w !! path); apply files_kept_refl. Qed.

Lemma keeps_files_write_file (path : string) (data : list Byte.byte) :
  keeps_files (write_file path data).
Proof.
  intros w. split; [reflexivity|]. intros p Hp. cbn [write_file snd fs].
  apply lookup_insert_is_Some. destruct (decide (path = p)); [left|right]; done.
Qed.

Lemma keeps_files_db_update {A} (op : Store → result A * Store)
    (call : result A → DbCall) : keeps_files (db_update op call).
Proof.
  intros w. unfold db_update. destruct (op (db w)) as [r s'].
  split; [reflexivity|intros p H; exact H].
Qed.

Lemma keeps_files_db_query {A} (op : Store → result A) (call : DbCall) :
  keeps_files (db_query op call).
Proof. intros w. split; [reflexivity|intros p H; exact H]. Qed.

Lemma keeps_files_set_selected_report (id : Z) : keeps_files (set_selected_report id).
Proof. intros w. split; [reflexivity|intros p H; exact H]. Qed.

Lemma keeps_files_generate_report (env : Collaborators) (file : string)
    (a : AnalysisResult) (t : string) : keeps_files (generate_report env file a t).
Proof.
  unfold generate_report. destruct (refused a).
  - apply keeps_files_renders, renders_only_raise.
  - apply keeps_files_bind; [apply keeps_files_renders, renders_only_get_clock|].
    intros now. destruct (render_document env file a t now).
    + apply keeps_files_bind; [apply keeps_files_write_file|].
      intros _. apply keeps_files_renders, renders_only_ret.
    + apply keeps_files_renders, renders_only_raise.
Qed.

Lemma keeps_files_agent_generate_report (env : Collaborators) (file : string)
    (a : AnalysisResult) (t : string) :
  keeps_files (agent_generate_report env file a t).
Proof.
  intros w. unfold agent_generate_report.
  pose proof (keeps_files_generate_report env file a t w) as H.
  destruct (generate_report env file a t w) as [r w']. exact H.
Qed.

Create HintDb files discriminated.

#[export] Hint Resolve keeps_files_read_file keeps_files_write_file keeps_files_db_update
  keeps_files_db_query keeps_files_set_selected_report keeps_files_generate_report
  keeps_files_agent_generate_report : files.

(** Splits an action along its binds, loops and branches. *)
Ltac keep_files :=
  repeat first
    [ progress intros
    | solve [auto with files]
    | solve [apply keeps_files_renders; auto with render]
    | apply keeps_files_bind
    | apply keeps_files_try_except
    | apply keeps_files_for_each
    | match goal with
      | |- keeps_files (match ?x with _ => _ end) => destruct x
      | |- keeps_files (if ?b then _ else _) => destruct b
      | |- keeps_files (let _ := _ in _) => cbv zeta
      end ].

Lemma keeps_files_show_report_generation (env : Collaborators) (i : ReportInput) :
  keeps_files (show_report_generation env i).
Proof.
  unfold show_report_generation, report_dashboard, show_dashboard, read_csv_path,
    generate_section, generate_body.
  pose proof (λ c, keeps_files_renders _ (renders_only_draw env c)).
  keep_files.
Qed.

Lemma keeps_files_show_report_history (i : HistoryInput) :
  keeps_files (show_report_history i).
Proof. unfold show_report_history, show_report_entry. keep_files. Qed.

Lemma keeps_files_show_quick_summary (env : Collaborators)
    (chosen : option UploadedFile) : keeps_files (show_quick_summary env chosen).
Proof.
  unfold show_quick_summary, quick_overview, quick_summary_save, db_save_report,
    db_save_quick_summary.
  keep_files.
Qed.

Lemma main_run (env : Collaborators) (p : Page) (w : World) :
  main env p w =
  match p with
  | UploadAndAnalyze i => show_upload_and_analyze env i
  | ReportGeneration i => show_report_generation env i
  | QuickSummaryPage chosen => show_quick_summary env chosen
  | ReportHistory i => show_report_history i
  end (add_widgets w [ PageConfig "Medical Report Analyzer" "🏥" "wide" "expanded";
                       Markdown custom_css;
                       Sidebar (Title "🏥 Medical Report Analyzer");
                       Sidebar (Markdown "---") ]).
Proof.
  unfold main.
  rewrite bind_run, show_run, bind_run, show_run, add_widgets_app,
    bind_run, show_run, add_widgets_app, bind_run, show_run, add_widgets_app.
  reflexivity.
Qed.

(** X17: every page keeps the session and the upload area in step: if
    the current file of the session is a file of the upload area before
    a run of the application, it is one afterwards, whatever page is
    shown and however the run ends. The dashboard of the Report
    Generation page can therefore always open the current file. *)
Theorem current_file_always_exists (env : Collaborators) (p : Page) (w : World) :
  current_file_exists w → current_file_exists (main env p w).2.
Proof.
  intros Hw. rewrite main_run.
  set (w0 := add_widgets w _).
  assert (current_file_exists w0) as Hw0 by exact Hw.
  assert (∀ w', files_kept w0 w' → current_file_exists w') as Hkept.
  { intros w' [Hsame Hfiles] q Hq. injection Hsame as Hsame _ _.
    apply Hfiles, Hw0. rewrite Hsame in Hq. exact Hq. }
  destruct p as [i|i|chosen|i].
  - destruct (file_uploader ["csv"] (up_file i)) as [f|] eqn:Hup.
    + destruct (upload_page_shape env i f w0 Hup) as [l ->].
      intros q Hq. cbn [snd session current_file fs] in *.
      injection Hq as <-. rewrite lookup_insert_eq. eexists. reflexivity.
    + unfold show_upload_and_analyze. rewrite Hup. exact Hw0.
  - apply Hkept, keeps_files_show_report_generation.
  - apply Hkept, keeps_files_show_quick_summary.
  - apply Hkept, keeps_files_show_report_history.
Qed.

Lemma current_file_always_exists_witness :
  current_file_exists (analysed_world basic_result) ∧
  current_file_exists
    (main (sample_env basic_result) (ReportGeneration generate_standard)
       (analysed_world basic_result)).2.
Proof.
  assert (current_file_exists (analysed_world basic_result)) as H.
  { intros q Hq. injection Hq as <-. exists (uf_buffer csv_upload). reflexivity. }
  split; [exact H|].
  exact (current_file_always_exists (sample_env basic_result)
           (ReportGeneration generate_standard) (analysed_world basic_result) H).
Defined.

(** X18: every page keeps the session consistent: if analysis results
    come with a table and a table with a current file before a run of
    the application, they do afterwards. In particular, whenever the
    Report Generation page gets past its two guards, the table whose
    length the preview shows is there. *)
Theorem session_stays_consistent (env : Collaborators) (p : Page) (w : World) :
  session_consistent w → session_consistent (main env p w).2.
Proof.
  intros Hw. rewrite main_run.
  set (w0 := add_widgets w _).
  assert (session_consistent w0) as Hw0 by exact Hw.
  assert (∀ w', files_kept w0 w' → session_consistent w') as Hkept.
  { intros w' [Hsame _]. injection Hsame as Hfile Han Hdf.
    unfold session_consistent. rewrite Hfile, Han, Hdf. exact Hw0. }
  destruct p as [i|i|chosen|i].
  - destruct (file_uploader ["csv"] (up_file i)) as [f|] eqn:Hup.
    + destruct (upload_page_shape env i f w0 Hup) as [l ->].
      unfold session_consistent. cbn [snd session current_file analysis_results df].
      split; [|intros _; eexists; reflexivity].
      destruct (read_csv env (uf_buffer f)); [intros _; eexists; reflexivity|].
      apply Hw0.
    + unfold show_upload_and_analyze. rewrite Hup. exact Hw0.
  - apply Hkept, keeps_files_show_report_generation.
  - apply Hkept, keeps_files_show_quick_summary.
  - apply Hkept, keeps_files_show_report_history.
Qed.

Lemma session_stays_consistent_witness :
  let w' := (main (sample_env basic_result) (UploadAndAnalyze (upload_only broken_upload))
               (analysed_world basic_result)).2 in
  session_consistent (analysed_world basic_result) ∧
  session_consistent w' ∧
  current_file (session w') = Some "uploads/broken.csv" ∧
  df (session w') = Some sample_table.
Proof.
  cbv zeta.
  assert (session_consistent (analysed_world basic_result)) as H
    by (split; intros _; eexists; reflexivity).
  split; [exact H|]. split.
  - exact (session_stays_consistent (sample_env basic_result)
             (UploadAndAnalyze (upload_only broken_upload))
             (analysed_world basic_result) H).
  - split; vm_compute; reflexivity.
Defined.

Lemma log_not_longer {A} (l k : list A) : k ≠ [] → l ≠ l ++ k.
Proof.
  intros Hk Heq. apply (f_equal length) in Heq. rewrite length_app in Heq.
  destruct k; [congruence|]. cbn [length] in Heq. lia.
Qed.

Lemma no_success_in_header (d : DataFrame) (l : list string) (tail : list Widget) :
  (∀ x, x ∈ tail → x ≠ SuccessMsg "Summary saved to database! 🎉") →
  SuccessMsg "Summary saved to database! 🎉"
  ∉ quick_header d ++ (InfoMsg <$> l) ++ tail.
Proof.
  intros Htail Hin. apply elem_of_app in Hin as [Hin|Hin].
  - unfold quick_header in Hin.
    repeat (apply elem_of_cons in Hin as [Hin|Hin]; [discriminate Hin|]).
    inversion Hin.
  - apply elem_of_app in Hin as [Hin|Hin].
    + apply list_elem_of_fmap in Hin as (x & Hx & _). discriminate Hx.
    + exact (Htail _ Hin eq_refl).
Qed.

(** X19: on the Quick Summary page the success message is shown
    exactly when the run ended normally after both store calls
    returned: the report record was saved and the summary was saved
    under the identifier of that record. *)
Theorem quick_summary_success_means_saved (env : Collaborators)
    (chosen : option UploadedFile) (w : World) :
  let r := show_quick_summary env chosen w in
  ∃ new,
    screen r.2 = screen w ++ new ∧
    (SuccessMsg "Summary saved to database! 🎉" ∈ new ↔
     r.1 = Ok tt ∧
     ∃ id text filename analysis metadata,
       db_log r.2
       = db_log w ++
           [ SaveReport filename "" "quick_summary" analysis metadata (Ok id);
             SaveQuickSummary id text (Ok tt) ]).
Proof.
  cbv zeta. rewrite show_quick_summary_run.
  destruct (file_uploader ["csv"; "xlsx"] chosen) as [f|].
  2:{ exists [Title "Quick Summary 📋"]. split; [reflexivity|]. split.
      - intros Hin. apply list_elem_of_singleton in Hin. discriminate Hin.
      - intros (_ & id & text & fn & a & m & Hlog). exfalso.
        revert Hlog. apply log_not_longer. discriminate. }
  destruct (read_csv env (uf_buffer f)) as [d|e].
  2:{ exists [Title "Quick Summary 📋"]. split; [reflexivity|]. split.
      - intros Hin. apply list_elem_of_singleton in Hin. discriminate Hin.
      - intros (Hr & _). discriminate Hr. }
  destruct (analyze env d "basic") as [a|e].
  2:{ exists (quick_header d). split; [reflexivity|]. split.
      - intros Hin. exfalso.
        apply (no_success_in_header d [] []); [intros x Hx; inversion Hx|].
        rewrite fmap_nil, !app_nil_r. exact Hin.
      - intros (Hr & _). discriminate Hr. }
  destruct (error a) as [msg|] eqn:Herr.
  - rewrite (quick_summary_save_error d f a msg) by exact Herr.
    exists (quick_header d
            ++ [ErrorMsg "Failed to generate summary. Please try again."]).
    split; [cbn; rewrite <- app_assoc; reflexivity|]. split.
    + intros Hin. exfalso.
      apply (no_success_in_header d []
               [ErrorMsg "Failed to generate summary. Please try again."]).
      * intros x Hx. apply list_elem_of_singleton in Hx. subst x. discriminate.
      * exact Hin.
    + intros (_ & id & text & fn & an & m & Hlog). exfalso.
      revert Hlog. apply log_not_longer. discriminate.
  - destruct (available (db (add_widgets w (quick_header d)))) eqn:Hav.
    + rewrite quick_summary_save_ok by assumption.
      exists (quick_header d ++ (InfoMsg <$> default [] (insights a))
              ++ [SuccessMsg "Summary saved to database! 🎉"]).
      split; [cbn [snd after_quick_save add_widgets screen];
              rewrite <- !app_assoc; reflexivity|].
      split.
      * intros _. split; [reflexivity|]. do 5 eexists. reflexivity.
      * intros _. rewrite !elem_of_app. right. right. left.
    + rewrite quick_summary_save_unavailable by assumption.
      exists (quick_header d ++ (InfoMsg <$> default [] (insights a))).
      split; [cbn [snd after_failed_save add_widgets screen];
              rewrite <- !app_assoc; reflexivity|].
      split.
      * intros Hin. exfalso.
        apply (no_success_in_header d (default [] (insights a)) []);
          [intros x Hx; inversion Hx|].
        rewrite app_nil_r. exact Hin.
      * intros (Hr & _). discriminate Hr.
Qed.
